(** * guu-timetable-bot: ingestion pipeline and week view

    A shallow embedding of the timetable bot's Python sources

      - [app/services/fetcher_parser.py]  (workbook parser, dedup, loader, sync)
      - [app/services/google_sheets_import.py]  (shared-sheet parser)
      - [app/handlers/admin.py]  (delimited-text parser, import helper)
      - [app/bot.py]  (session helper, day and week views)
      - [db/models.py]  (the persisted tables)

    Python [str] values are lists of Unicode code points, Python exceptions
    are values of the type [exception], and code that talks to the database
    session threads the session explicitly through a small state-and-error
    monad. *)

From Stdlib Require Import ZArith NArith Lia.
From stdpp Require Import base option list strings gmap.

Open Scope Z_scope.

(* ===================================================================== *)
(** * Python strings *)
(* ===================================================================== *)

(** A Python [str] is its sequence of code points. *)
Abbreviation pystr := (list N).

(** String literals of the Python sources are written as Rocq strings,
    whose bytes are the UTF-8 encoding of the text, and decoded. *)
Fixpoint utf8_decode (bs : list N) : pystr :=
  match bs with
  | [] => []
  | b :: r =>
      if (b <? 128)%N then b :: utf8_decode r
      else if (b <? 224)%N then
        match r with
        | b1 :: r' => ((b - 192) * 64 + (b1 - 128))%N :: utf8_decode r'
        | _ => []
        end
      else if (b <? 240)%N then
        match r with
        | b1 :: b2 :: r' =>
            ((b - 224) * 4096 + (b1 - 128) * 64 + (b2 - 128))%N :: utf8_decode r'
        | _ => []
        end
      else
        match r with
        | b1 :: b2 :: b3 :: r' =>
            ((b - 240) * 262144 + (b1 - 128) * 4096 + (b2 - 128) * 64 + (b3 - 128))%N
            :: utf8_decode r'
        | _ => []
        end
  end.

Definition py (s : string) : pystr :=
  utf8_decode ((fun a => Ascii.N_of_ascii a) <$> String.list_ascii_of_string s).

Definition in_range (lo hi c : N) : bool := ((lo <=? c) && (c <=? hi))%N.

Definition chr_eq (a c : N) : bool := (a =? c)%N.

Definition HYPHEN_MINUS : N := 45.     (* '-'  U+002D *)
Definition UNI_HYPHEN : N := 8208.     (* U+2010 *)
Definition EN_DASH : N := 8211.        (* U+2013 *)
Definition EM_DASH : N := 8212.        (* U+2014 *)
Definition BACKSLASH : N := 92.
Definition COLON : N := 58.
Definition NEWLINE : N := 10.

(** [str.isspace] on one code point; [str.strip()] removes exactly these. *)
Definition is_space (c : N) : bool :=
  in_range 9 13 c || in_range 28 32 c || chr_eq 133 c || chr_eq 160 c
  || chr_eq 5760 c || in_range 8192 8202 c || in_range 8232 8233 c
  || chr_eq 8239 c || chr_eq 8287 c || chr_eq 12288 c.

(** First code points of the runs of ten decimal digits (general category
    Nd) in the Unicode database of CPython 3.12; the mathematical digits
    U+1D7CE..U+1D7FF form five consecutive runs. *)
Definition decimal_runs : list N :=
  [48; 1632; 1776; 1984; 2406; 2534; 2662; 2790; 2918; 3046; 3174; 3302;
   3430; 3558; 3664; 3792; 3872; 4160; 4240; 6112; 6160; 6470; 6608; 6784;
   6800; 6992; 7088; 7232; 7248; 42528; 43216; 43264; 43472; 43504; 43600;
   44016; 65296; 66720; 68912; 69734; 69872; 69942; 70096; 70384; 70736;
   70864; 71248; 71360; 71472; 71904; 72016; 72784; 73040; 73120; 73552;
   92768; 92864; 93008; 120782; 120792; 120802; 120812; 120822; 123200;
   123632; 124144; 125264; 130032]%N.

(** [unicodedata.decimal]: the value of a decimal digit, used by [\d] in
    a [str] pattern and by [int()]. *)
Definition decimal_value (c : N) : option Z :=
  (fun lo => Z.of_N (c - lo)) <$> List.find (fun lo => in_range lo (lo + 9) c) decimal_runs.

Definition is_digit (c : N) : bool := bool_decide (is_Some (decimal_value c)).

Fixpoint lstrip (s : pystr) : pystr :=
  match s with
  | c :: s' => if is_space c then lstrip s' else s
  | [] => []
  end.

(** [s.strip()] *)
Definition str_strip (s : pystr) : pystr := rev (lstrip (rev (lstrip s))).

Fixpoint is_prefix (p s : pystr) : bool :=
  match p, s with
  | [], _ => true
  | a :: p', b :: s' => chr_eq a b && is_prefix p' s'
  | _ :: _, [] => false
  end.

(** The first occurrence of [sep] in [s]: the text before it and the text
    after it.  [sep] is not empty. *)
Fixpoint str_find (sep s : pystr) : option (pystr * pystr) :=
  if is_prefix sep s then Some ([], drop (length sep) s)
  else match s with
       | [] => None
       | c :: s' =>
           match str_find sep s' with
           | Some (before, after) => Some (c :: before, after)
           | None => None
           end
       end.

(** [sep in s] *)
Definition str_contains (sep s : pystr) : bool :=
  match str_find sep s with Some _ => true | None => false end.

(** [s.partition(sep)] *)
Definition str_partition (sep s : pystr) : pystr * pystr * pystr :=
  match str_find sep s with
  | Some (before, after) => (before, sep, after)
  | None => (s, [], [])
  end.

(** [sep.join(parts)] *)
Fixpoint str_join (sep : pystr) (parts : list pystr) : pystr :=
  match parts with
  | [] => []
  | [p] => p
  | p :: rest => p ++ sep ++ str_join sep rest
  end.

(** [re.split] on a pattern that is one character class. *)
Fixpoint re_split_class (cls : N -> bool) (s : pystr) : list pystr :=
  match s with
  | [] => [[]]
  | c :: s' =>
      if cls c then [] :: re_split_class cls s'
      else match re_split_class cls s' with
           | p :: ps => (c :: p) :: ps
           | [] => [[c]]
           end
  end.

(** Case mapping of one code point, for the basic Latin and the Cyrillic
    letters (U+0430..U+045F); [str.upper] and [str.lower] on text in other
    scripts are outside this development and leave the text unchanged
    here. *)
Definition chr_upper (c : N) : N :=
  if in_range 97 122 c then (c - 32)%N
  else if in_range 1072 1103 c then (c - 32)%N
  else if in_range 1104 1119 c then (c - 80)%N
  else c.

Definition chr_lower (c : N) : N :=
  if in_range 65 90 c then (c + 32)%N
  else if in_range 1040 1071 c then (c + 32)%N
  else if in_range 1024 1039 c then (c + 80)%N
  else c.

Definition str_upper (s : pystr) : pystr := chr_upper <$> s.
Definition str_lower (s : pystr) : pystr := chr_lower <$> s.

(** Decimal numerals *)
Fixpoint uint_codes (d : Decimal.uint) : pystr :=
  match d with
  | Decimal.Nil => []
  | Decimal.D0 d => 48%N :: uint_codes d
  | Decimal.D1 d => 49%N :: uint_codes d
  | Decimal.D2 d => 50%N :: uint_codes d
  | Decimal.D3 d => 51%N :: uint_codes d
  | Decimal.D4 d => 52%N :: uint_codes d
  | Decimal.D5 d => 53%N :: uint_codes d
  | Decimal.D6 d => 54%N :: uint_codes d
  | Decimal.D7 d => 55%N :: uint_codes d
  | Decimal.D8 d => 56%N :: uint_codes d
  | Decimal.D9 d => 57%N :: uint_codes d
  end.

(** [str(n)] for an [int] *)
Definition str_of_int (z : Z) : pystr :=
  if z <? 0 then HYPHEN_MINUS :: uint_codes (N.to_uint (Z.to_N (- z)))
  else uint_codes (N.to_uint (Z.to_N z)).

(** ["%0wd" % z] for [0 <= z] *)
Definition zpad (w : nat) (z : Z) : pystr :=
  let digits := str_of_int z in
  replicate (w - length digits) 48%N ++ digits.

(* ===================================================================== *)
(** * Exceptions *)
(* ===================================================================== *)

Inductive exception : Type :=
| ValueError (msg : pystr)
| RuntimeError (msg : pystr)
| TypeError (msg : pystr)
| IndexError (msg : pystr)
| AttributeError (msg : pystr)
| OverflowError (msg : pystr)
| OSError (msg : pystr)
| HTTPError (msg : pystr)               (* httpx: transport and status errors *)
| InvalidFileException (msg : pystr)    (* openpyxl *)
| ParserError (msg : pystr)             (* pandas.errors; a [ValueError] *)
| ValidationError (msg : pystr)         (* pydantic *)
| MultipleResultsFound                  (* sqlalchemy.exc *)
| IntegrityError                        (* sqlalchemy.exc *)
| PendingRollbackError.                 (* sqlalchemy.exc *)

#[global] Instance exception_eq_dec : EqDecision exception.
Proof. solve_decision. Defined.

(** The outcome of running a piece of Python: a value, or a raised
    exception. *)
Inductive result (A : Type) : Type :=
| Ok (a : A)
| Raise (e : exception).
Arguments Ok {A} a.
Arguments Raise {A} e.

Definition rbind {A B} (m : result A) (k : A -> result B) : result B :=
  match m with
  | Ok a => k a
  | Raise e => Raise e
  end.

Notation "x <~ m ;; k" := (rbind m (fun x => k))
  (at level 100, m at next level, right associativity, only parsing).

Definition is_ok {A} (r : result A) : bool :=
  match r with Ok _ => true | Raise _ => false end.

(** [int(s)] on a [str]: surrounding white space, an optional sign, and
    decimal digits that single underscores may separate. *)
Fixpoint int_digits (acc : Z) (after_digit : bool) (s : pystr) : option Z :=
  match s with
  | [] => if after_digit then Some acc else None
  | c :: s' =>
      match decimal_value c with
      | Some v => int_digits (10 * acc + v) true s'
      | None => if chr_eq 95 c && after_digit then int_digits acc false s' else None
      end
  end.

Definition py_int (s : pystr) : result Z :=
  let bad := Raise (ValueError (py "invalid literal for int() with base 10")) in
  match str_strip s with
  | 43%N :: ds => match int_digits 0 false ds with Some z => Ok z | None => bad end
  | 45%N :: ds => match int_digits 0 false ds with Some z => Ok (- z) | None => bad end
  | ds => match int_digits 0 false ds with Some z => Ok z | None => bad end
  end.

(* ===================================================================== *)
(** * The [datetime] module *)
(* ===================================================================== *)

Module datetime.

Record date : Type := mk_date { year : Z; month : Z; day : Z }.
Record time : Type := mk_time { hour : Z; minute : Z; second : Z; microsecond : Z }.
Record datetime : Type := mk_datetime { date_part : date; time_part : time }.

#[global] Instance date_eq_dec : EqDecision date.
Proof. solve_decision. Defined.
#[global] Instance time_eq_dec : EqDecision time.
Proof. solve_decision. Defined.
#[global] Instance datetime_eq_dec : EqDecision datetime.
Proof. solve_decision. Defined.

Definition is_leap (y : Z) : bool :=
  (y mod 4 =? 0) && (negb (y mod 100 =? 0) || (y mod 400 =? 0)).

Definition days_in_month (y m : Z) : Z :=
  if m =? 2 then (if is_leap y then 29 else 28)
  else if (m =? 4) || (m =? 6) || (m =? 9) || (m =? 11) then 30
  else 31.

(** The constructor [date(year, month, day)] *)
Definition date_new (y m d : Z) : result date :=
  if negb ((1 <=? y) && (y <=? 9999)) then Raise (ValueError (py "year is out of range"))
  else if negb ((1 <=? m) && (m <=? 12)) then Raise (ValueError (py "month must be in 1..12"))
  else if negb ((1 <=? d) && (d <=? days_in_month y m)) then
    Raise (ValueError (py "day is out of range for month"))
  else Ok (mk_date y m d).

(** The constructor [time(hour, minute)] *)
Definition time_new (h m : Z) : result time :=
  if negb ((0 <=? h) && (h <=? 23)) then Raise (ValueError (py "hour must be in 0..23"))
  else if negb ((0 <=? m) && (m <=? 59)) then Raise (ValueError (py "minute must be in 0..59"))
  else Ok (mk_time h m 0 0).

(** [d.isoformat()], which is also [str(d)] *)
Definition isoformat (d : date) : pystr :=
  zpad 4 (year d) ++ py "-" ++ zpad 2 (month d) ++ py "-" ++ zpad 2 (day d).

(** [str(dt)] for a naive [datetime] *)
Definition str_datetime (dt : datetime) : pystr :=
  let t := time_part dt in
  isoformat (date_part dt) ++ py " " ++ zpad 2 (hour t) ++ py ":" ++ zpad 2 (minute t)
    ++ py ":" ++ zpad 2 (second t)
    ++ (if microsecond t =? 0 then [] else py "." ++ zpad 6 (microsecond t)).

(** ["{:%d.%m.%Y}".format(d)] *)
Definition format_dmY (d : date) : pystr :=
  zpad 2 (day d) ++ py "." ++ zpad 2 (month d) ++ py "." ++ str_of_int (year d).

(** Proleptic Gregorian ordinals, as CPython's [_ymd2ord] and [_ord2ymd]. *)
Definition days_before_year (y : Z) : Z :=
  let y1 := y - 1 in y1 * 365 + y1 / 4 - y1 / 100 + y1 / 400.

Definition days_before_month (y m : Z) : Z :=
  nth (Z.to_nat m) [0; 0; 31; 59; 90; 120; 151; 181; 212; 243; 273; 304; 334] 0
  + (if (2 <? m) && is_leap y then 1 else 0).

Definition toordinal (d : date) : Z :=
  days_before_year (year d) + days_before_month (year d) (month d) + day d.

Definition fromordinal (n0 : Z) : date :=
  let n := n0 - 1 in
  let n400 := n / 146097 in let n := n mod 146097 in
  let n100 := n / 36524 in let n := n mod 36524 in
  let n4 := n / 1461 in let n := n mod 1461 in
  let n1 := n / 365 in let n := n mod 365 in
  let y := n400 * 400 + 1 + n100 * 100 + n4 * 4 + n1 in
  if (n1 =? 4) || (n100 =? 4) then mk_date (y - 1) 12 31
  else
    let leapyear := (n1 =? 3) && (negb (n4 =? 24) || (n100 =? 3)) in
    let m := Z.shiftr (n + 50) 5 in
    let before mm :=
      nth (Z.to_nat mm) [0; 0; 31; 59; 90; 120; 151; 181; 212; 243; 273; 304; 334] 0
      + (if (2 <? mm) && leapyear then 1 else 0) in
    if n <? before m then mk_date y (m - 1) (n - before (m - 1) + 1)
    else mk_date y m (n - before m + 1).

(** [d + timedelta(days=k)] *)
Definition add_days (d : date) (k : Z) : result date :=
  let o := toordinal d + k in
  if (0 <? o) && (o <=? 3652059) then Ok (fromordinal o)
  else Raise (OverflowError (py "date value out of range")).

(** [d.weekday()]: Monday is 0 *)
Definition weekday (d : date) : Z := (toordinal d + 6) mod 7.

(** [datetime.strptime(s, "%H:%M").time()].  [%H] is the pattern
    [2[0-3]|[0-1]\d|\d] and [%M] is [[0-5]\d|\d]; the whole string has to
    be consumed. *)
Definition strptime_H (s : pystr) : option (Z * pystr) :=
  match s with
  | c1 :: c2 :: r =>
      if chr_eq 50 c1 && in_range 48 51 c2 then Some (20 + Z.of_N (c2 - 48), r)
      else if in_range 48 49 c1 then
        match decimal_value c2 with
        | Some v => Some (10 * Z.of_N (c1 - 48) + v, r)
        | None => Some (Z.of_N (c1 - 48), c2 :: r)
        end
      else (fun v => (v, c2 :: r)) <$> decimal_value c1
  | [c1] => (fun v => (v, [])) <$> decimal_value c1
  | [] => None
  end.

Definition strptime_M (s : pystr) : option (Z * pystr) :=
  match s with
  | c1 :: c2 :: r =>
      if in_range 48 53 c1 then
        match decimal_value c2 with
        | Some v => Some (10 * Z.of_N (c1 - 48) + v, r)
        | None => Some (Z.of_N (c1 - 48), c2 :: r)
        end
      else (fun v => (v, c2 :: r)) <$> decimal_value c1
  | [c1] => (fun v => (v, [])) <$> decimal_value c1
  | [] => None
  end.

Definition strptime_HM (s : pystr) : result time :=
  let no_match := Raise (ValueError (py "time data does not match format '%H:%M'")) in
  match strptime_H s with
  | Some (h, c :: s') =>
      if chr_eq COLON c then
        match strptime_M s' with
        | Some (m, []) => Ok (mk_time h m 0 0)
        | Some (_, _ :: _) => Raise (ValueError (py "unconverted data remains"))
        | None => no_match
        end
      else no_match
  | _ => no_match
  end.

(** [datetime.strptime(s, "%d.%m.%Y").date()].  [%d] is
    [3[0-1]|[1-2]\d|0[1-9]|[1-9]| [1-9]], [%m] is [1[0-2]|0[1-9]|[1-9]] and
    [%Y] is [\d\d\d\d]. *)
Definition strptime_d (s : pystr) : option (Z * pystr) :=
  match s with
  | c1 :: c2 :: r =>
      if chr_eq 51 c1 && in_range 48 49 c2 then Some (30 + Z.of_N (c2 - 48), r)
      else if in_range 49 50 c1 && is_digit c2 then
        (fun v => (10 * Z.of_N (c1 - 48) + v, r)) <$> decimal_value c2
      else if chr_eq 48 c1 && in_range 49 57 c2 then Some (Z.of_N (c2 - 48), r)
      else if in_range 49 57 c1 then Some (Z.of_N (c1 - 48), c2 :: r)
      else if chr_eq 32 c1 && in_range 49 57 c2 then Some (Z.of_N (c2 - 48), r)
      else None
  | [c1] => if in_range 49 57 c1 then Some (Z.of_N (c1 - 48), []) else None
  | [] => None
  end.

Definition strptime_m (s : pystr) : option (Z * pystr) :=
  match s with
  | c1 :: c2 :: r =>
      if chr_eq 49 c1 && in_range 48 50 c2 then Some (10 + Z.of_N (c2 - 48), r)
      else if chr_eq 48 c1 && in_range 49 57 c2 then Some (Z.of_N (c2 - 48), r)
      else if in_range 49 57 c1 then Some (Z.of_N (c1 - 48), c2 :: r)
      else None
  | [c1] => if in_range 49 57 c1 then Some (Z.of_N (c1 - 48), []) else None
  | [] => None
  end.

Definition strptime_Y (s : pystr) : option (Z * pystr) :=
  match s with
  | c1 :: c2 :: c3 :: c4 :: r =>
      match decimal_value c1, decimal_value c2, decimal_value c3, decimal_value c4 with
      | Some v1, Some v2, Some v3, Some v4 => Some (1000 * v1 + 100 * v2 + 10 * v3 + v4, r)
      | _, _, _, _ => None
      end
  | _ => None
  end.

Definition strptime_dmY (s : pystr) : result date :=
  let no_match := Raise (ValueError (py "time data does not match format '%d.%m.%Y'")) in
  match strptime_d s with
  | Some (d, 46%N :: s1) =>
      match strptime_m s1 with
      | Some (m, 46%N :: s2) =>
          match strptime_Y s2 with
          | Some (y, []) => date_new y m d
          | Some (_, _ :: _) => Raise (ValueError (py "unconverted data remains"))
          | None => no_match
          end
      | _ => no_match
      end
  | _ => no_match
  end.

End datetime.

(* ===================================================================== *)
(** * Regular expressions *)
(* ===================================================================== *)

(** The patterns of this program are sequences of quantified character
    classes with capture groups that do not nest. *)
Inductive re_item : Type :=
| Rep (cls : N -> bool) (lo : nat) (hi : option nat)   (* cls{lo,hi}, greedy *)
| GOpen                                                (* ( *)
| GClose                                               (* ) *)
| Bol                                                  (* ^ *)
| Eol.                                                 (* $ *)

Abbreviation Lit c := (Rep (chr_eq c) 1 (Some 1%nat)).

(** Greedy repetition with backtracking: one more character is tried
    first, then the continuation [k]. [taken] holds the characters consumed
    so far, last first. *)
Fixpoint re_rep {R} (cls : N -> bool) (k : bool -> pystr -> pystr -> option R)
    (lo : nat) (hi : option nat) (start : bool) (taken s : pystr) : option R :=
  let stop := match lo with O => k start s taken | S _ => None end in
  match s with
  | c :: s' =>
      if cls c && match hi with Some O => false | _ => true end then
        match re_rep cls k (pred lo) (pred <$> hi) false (c :: taken) s' with
        | Some r => Some r
        | None => stop
        end
      else stop
  | [] => stop
  end.

(** Matching at the head of [s]; [start] tells whether this is the
    beginning of the subject.  The result is the list of captured groups
    and the unconsumed rest. *)
Fixpoint re_run (r : list re_item) (start : bool) (s : pystr)
    (cur : option pystr) (done : list pystr) : option (list pystr * pystr) :=
  match r with
  | [] => Some (rev done, s)
  | Rep cls lo hi :: r' =>
      re_rep cls (fun start' s' taken => re_run r' start' s' ((fun g => taken ++ g) <$> cur) done)
        lo hi start [] s
  | GOpen :: r' => re_run r' start s (Some []) done
  | GClose :: r' =>
      re_run r' start s None (match cur with Some g => rev g :: done | None => done end)
  | Bol :: r' => if start then re_run r' start s cur done else None
  | Eol :: r' =>
      match s with
      | [] | [10%N] => re_run r' start s cur done     (* the end, or a final newline *)
      | _ => None
      end
  end.

(** [pattern.match(s)]: the groups of the match, if any *)
Definition re_match (r : list re_item) (s : pystr) : option (list pystr) :=
  fst <$> re_run r true s None [].

(** [pattern.search(s)] *)
Fixpoint re_search_from (r : list re_item) (start : bool) (s : pystr) : option (list pystr) :=
  match re_run r start s None [] with
  | Some (gs, _) => Some gs
  | None =>
      match s with
      | [] => None
      | _ :: s' => re_search_from r false s'
      end
  end.

Definition re_search (r : list re_item) (s : pystr) : option (list pystr) :=
  re_search_from r true s.

(* ===================================================================== *)
(** * Cell values of a worksheet (openpyxl, [values_only=True]) *)
(* ===================================================================== *)

(** A cell value is [None], a [str], an [int], a [bool], a [float] (given
    by its [repr]), a [date] or a naive [datetime]. *)
Inductive cell : Type :=
| CNone
| CStr (s : pystr)
| CInt (z : Z)
| CBool (b : bool)
| CFloat (repr : pystr)
| CDate (d : datetime.date)
| CDateTime (dt : datetime.datetime).

#[global] Instance cell_eq_dec : EqDecision cell.
Proof. solve_decision. Defined.

(** [str(v)] *)
Definition py_str (v : cell) : pystr :=
  match v with
  | CNone => py "None"
  | CStr s => s
  | CInt z => str_of_int z
  | CBool b => if b then py "True" else py "False"
  | CFloat repr => repr
  | CDate d => datetime.isoformat d
  | CDateTime dt => datetime.str_datetime dt
  end.

(** [bool(v)] *)
Definition truthy (v : cell) : bool :=
  match v with
  | CNone => false
  | CStr s => negb (bool_decide (s = []))
  | CInt z => negb (z =? 0)
  | CBool b => b
  | CFloat repr => negb (bool_decide (repr = py "0.0") || bool_decide (repr = py "-0.0"))
  | CDate _ | CDateTime _ => true
  end.

(** [hasattr(v, "row")] and [v.row]: none of the value types above has
    such an attribute (it belongs to openpyxl's [Cell] objects, which
    [values_only=True] does not yield). *)
Definition getattr_row (v : cell) : option Z :=
  match v with
  | CNone | CStr _ | CInt _ | CBool _ | CFloat _ | CDate _ | CDateTime _ => None
  end.

(** The rows of the active worksheet as [ws.iter_rows(values_only=True)]
    yields them, row 1 first. *)
Abbreviation worksheet := (list (list cell)).

(** The cells that a worksheet holds, row by row from row 1: each row
    lists the values of its cells from column A up to the last cell that
    the row holds. *)
Abbreviation sheet_cells := (list (list cell)).

Module openpyxl.

(** [ws.max_column]: the last column in which some row holds a cell, and
    1 for a sheet without cells. *)
Definition max_column (cells : sheet_cells) : nat := foldr Nat.max 1%nat (length <$> cells).

(** [ws.max_row]: the last row that holds a cell.  (It is 1 for a sheet
    without cells, whose one row of [None] no step of the parser tells
    from no row.) *)
Fixpoint max_row (cells : sheet_cells) : nat :=
  match cells with
  | [] => 0
  | row :: rest =>
      match max_row rest with
      | O => if bool_decide (row = []) then 0 else 1
      | S n => S (S n)
      end
  end.

(** [ws.iter_rows(values_only=True)]: the rows 1 to [ws.max_row], each
    given from column 1 to [ws.max_column], with [None] where the row
    holds no cell.  (Asked for rows beyond the last one, as the scan of
    rows 1 to 10 may, it gives rows of [None], which the scan passes
    over.) *)
Definition iter_rows (cells : sheet_cells) : worksheet :=
  (fun row => row ++ replicate (max_column cells - length row) CNone)
    <$> take (max_row cells) cells.

End openpyxl.

(* ===================================================================== *)
(** * [httpx.URL] and [pathlib.Path] *)
(* ===================================================================== *)

Module httpx.

Module URL.

(** A URL object, by its text [str(url)]. *)
Record t : Type := mk { text : pystr }.

(** The keyword arguments that [URL()] accepts: the components of a
    URL. *)
Definition components : list string :=
  ["scheme"; "username"; "password"; "userinfo"; "host"; "port"; "netloc"; "path";
   "query"; "raw_path"; "fragment"; "params"]%string.

(** [httpx.URL(url, **kwargs)]: every keyword is checked against the
    components before [url] is looked at, and another keyword is
    refused.  (Given components would replace those of [url]; no call of
    this program gives one.) *)
Definition new (url : pystr) (kwargs : list (string * pystr)) : result t :=
  match List.find (fun kv => negb (bool_decide (fst kv ∈ components))) kwargs with
  | Some (key, _) =>
      Raise (TypeError (py "'" ++ py key ++ py "' is an invalid keyword argument for URL()"))
  | None => Ok (mk url)
  end.

End URL.

End httpx.

Module pathlib.

(** What this program hands to [Path()]: a [str], or an [httpx.URL]. *)
Inductive arg : Type :=
| of_str (s : pystr)
| of_URL (u : httpx.URL.t).

(** [Path(a)], by the text of the path: an object that is neither a
    [str] nor path-like is refused. *)
Definition Path (a : arg) : result pystr :=
  match a with
  | of_str s => Ok s
  | of_URL _ =>
      Raise (TypeError (py "argument should be a str or an os.PathLike object where __fspath__ returns a str, not 'URL'"))
  end.

(** [p.name]: the last component of the path; empty components and [.]
    do not count. *)
Definition name (p : pystr) : pystr :=
  default [] (last (filter (fun part => part <> [] /\ part <> py ".")
                      (re_split_class (chr_eq 47) p))).

End pathlib.

(* ===================================================================== *)
(** * Running Python against a state *)
(* ===================================================================== *)

(** A computation over a state [S] ends with a value or a raised
    exception; the state it leaves behind is there in both cases. *)
Definition Eff (S A : Type) : Type := S -> result A * S.

Definition ret {S A} (a : A) : Eff S A := fun s => (Ok a, s).

Definition raise {S A} (e : exception) : Eff S A := fun s => (Raise e, s).

Definition bind {S A B} (m : Eff S A) (k : A -> Eff S B) : Eff S B :=
  fun s =>
    match m s with
    | (Ok a, s') => k a s'
    | (Raise e, s') => (Raise e, s')
    end.

Notation "x <- m ;; k" := (bind m (fun x => k))
  (at level 100, m at next level, right associativity, only parsing).
Notation "m ;;; k" := (bind m (fun _ => k))
  (at level 100, right associativity, only parsing).

Definition lift {S A} (r : result A) : Eff S A := fun s => (r, s).

Definition get_state {S} : Eff S S := fun s => (Ok s, s).

Definition modify {S} (f : S -> S) : Eff S unit := fun s => (Ok tt, f s).

(** [try: m  except Exception as e: h e] *)
Definition try_except {S A} (m : Eff S A) (h : exception -> Eff S A) : Eff S A :=
  fun s =>
    match m s with
    | (Ok a, s') => (Ok a, s')
    | (Raise e, s') => h e s'
    end.

(** [for x in xs: body x] *)
Fixpoint for_each {S A} (xs : list A) (body : A -> Eff S unit) : Eff S unit :=
  match xs with
  | [] => ret tt
  | x :: rest => body x ;;; for_each rest body
  end.

(* ===================================================================== *)
(** * db/models.py: the persisted tables *)
(* ===================================================================== *)

Module models.

Module Group.
Record t : Type := mk { id : Z; faculty_id : Z; code : pystr; course : Z }.
End Group.

Module Teacher.
Record t : Type := mk { id : Z; name : pystr }.
End Teacher.

Module Room.
Record t : Type := mk { id : Z; building : pystr; number : pystr }.
End Room.

Module SourceFile.
(** [added_at] is a time stamp and is left out. *)
Record t : Type := mk { id : Z; url : pystr; sha256 : pystr; semester : option pystr }.
End SourceFile.

Module Lesson.
(** The class maps these columns (and [created_at], a time stamp left
    out here); it declares no relationship. *)
Record t : Type := mk {
  id : Z;
  group_id : Z;
  date : datetime.date;
  start_time : datetime.time;
  end_time : datetime.time;
  subject : pystr;
  teacher_id : option Z;
  room_id : option Z;
  source_id : option Z;
}.
End Lesson.

(** The rows of the tables the pipeline reads and writes. *)
Record tables : Type := mk_tables {
  group : list Group.t;
  teacher : list Teacher.t;
  room : list Room.t;
  source_file : list SourceFile.t;
  lesson : list Lesson.t;
}.

Definition with_teacher (t : tables) (rows : list Teacher.t) : tables :=
  {| group := group t; teacher := rows; room := room t;
     source_file := source_file t; lesson := lesson t |}.
Definition with_room (t : tables) (rows : list Room.t) : tables :=
  {| group := group t; teacher := teacher t; room := rows;
     source_file := source_file t; lesson := lesson t |}.
Definition with_source_file (t : tables) (rows : list SourceFile.t) : tables :=
  {| group := group t; teacher := teacher t; room := room t;
     source_file := rows; lesson := lesson t |}.
Definition with_lesson (t : tables) (rows : list Lesson.t) : tables :=
  {| group := group t; teacher := teacher t; room := room t;
     source_file := source_file t; lesson := rows |}.

(** [autoincrement=True]: the next primary key of a table *)
Definition next_id (ids : list Z) : Z := 1 + foldr Z.max 0 ids.

(** The primary keys and the [UniqueConstraint]s and [unique=True]
    columns of the tables above. *)
Definition constraints_ok (t : tables) : bool :=
  bool_decide (NoDup (Group.id <$> group t))
  && bool_decide (NoDup ((fun g => (Group.faculty_id g, Group.code g)) <$> group t))
  && bool_decide (NoDup (Teacher.id <$> teacher t))
  && bool_decide (NoDup (Teacher.name <$> teacher t))
  && bool_decide (NoDup (Room.id <$> room t))
  && bool_decide (NoDup ((fun r => (Room.building r, Room.number r)) <$> room t))
  && bool_decide (NoDup (SourceFile.id <$> source_file t))
  && bool_decide (NoDup (SourceFile.url <$> source_file t))
  && bool_decide (NoDup (SourceFile.sha256 <$> source_file t))
  && bool_decide (NoDup (Lesson.id <$> lesson t)).

End models.

(* ===================================================================== *)
(** * The SQLAlchemy session *)
(* ===================================================================== *)

(** One session over the database: [committed] is what the database
    holds, [current] is what the session's open transaction sees (the
    committed rows and the rows added since), and [inactive] is set once
    a flush has failed and stays set until [rollback]. *)
Record Session : Type := mk_Session {
  committed : models.tables;
  current : models.tables;
  inactive : bool;
}.

Module session.

(** [SessionMaker()] over a database *)
Definition open (t : models.tables) : Session :=
  {| committed := t; current := t; inactive := false |}.

(** [db.flush()], also run by autoflush before every query and by
    [commit]: the pending rows are written, and a violated constraint
    rolls the transaction back and leaves the session inactive. *)
Definition flush : Eff Session unit :=
  fun s =>
    if inactive s then (Raise PendingRollbackError, s)
    else if models.constraints_ok (current s) then (Ok tt, s)
    else (Raise IntegrityError,
          {| committed := committed s; current := committed s; inactive := true |}).

(** [db.execute(select(...))] followed by [res.scalars().all()] and the
    like: [q] is the query. *)
Definition execute {A} (q : models.tables -> list A) : Eff Session (list A) :=
  flush ;;; s <- get_state ;; ret (q (current s)).

(** [res.scalar_one_or_none()] *)
Definition scalar_one_or_none {A} (rows : list A) : result (option A) :=
  match rows with
  | [] => Ok None
  | [x] => Ok (Some x)
  | _ => Raise MultipleResultsFound
  end.

(** [db.add(obj)]: the row joins the pending rows of the transaction.
    [ins] builds the row from its primary key and stores it. *)
Definition add (ids : models.tables -> list Z) (ins : Z -> models.tables -> models.tables)
    : Eff Session Z :=
  fun s =>
    let new_id := models.next_id (ids (current s)) in
    (Ok new_id,
     {| committed := committed s; current := ins new_id (current s); inactive := inactive s |}).

(** [db.commit()] *)
Definition commit : Eff Session unit :=
  flush ;;; modify (fun s => {| committed := current s; current := current s; inactive := false |}).

(** [db.rollback()] *)
Definition rollback : Eff Session unit :=
  modify (fun s => {| committed := committed s; current := committed s; inactive := false |}).

End session.

(* ===================================================================== *)
(** * services/fetcher_parser.py: records and the workbook parser *)
(* ===================================================================== *)

Module fetcher_parser.

(** [class Lesson(BaseModel)] *)
Record Lesson : Type := mk_Lesson {
  group_code : pystr;
  date : datetime.date;
  start_time : datetime.time;
  end_time : datetime.time;
  subject : pystr;
  teacher : option pystr;
  room : option pystr;
}.

#[global] Instance Lesson_eq_dec : EqDecision Lesson.
Proof. solve_decision. Defined.

(** [class SourceFileMeta(BaseModel)]; [fetched_at] is a time stamp that
    no decision depends on and is left out. *)
Record SourceFileMeta : Type := mk_SourceFileMeta {
  url : pystr;
  sha256 : pystr;
  semester : option pystr;
}.

(** [class _FileLink(NamedTuple)] *)
Record _FileLink : Type := mk_FileLink {
  link_url : httpx.URL.t;
  filename : pystr;
}.

(** The class [[А-ЯA-ZЁ\-]] under [re.I]: besides both cases of the
    listed letters it contains the code points that CPython's case
    tables fold onto them (U+0130, U+0131, U+017F, U+1C80..U+1C86,
    U+212A). *)
Definition group_letter (c : N) : bool :=
  chr_eq 45 c || in_range 65 90 c || in_range 97 122 c
  || in_range 304 305 c || chr_eq 383 c
  || chr_eq 1025 c || in_range 1040 1103 c || chr_eq 1105 c
  || in_range 7296 7302 c || chr_eq 8490 c.

(** [GROUP_RE = re.compile(r"([А-ЯA-ZЁ\-]+\d{2,3})", re.I)] *)
Definition GROUP_RE : list re_item :=
  [GOpen; Rep group_letter 1 None; Rep is_digit 2 (Some 3%nat); GClose].

Definition date_sep (c : N) : bool := chr_eq 46 c || chr_eq 45 c || chr_eq 47 c.

(** [DATE_CELL_RE = re.compile(r"^(\d{1,2})[.\-/](\d{1,2})[.\-/](\d{2,4})$")] *)
Definition DATE_CELL_RE : list re_item :=
  [Bol; GOpen; Rep is_digit 1 (Some 2%nat); GClose; Rep date_sep 1 (Some 1%nat);
   GOpen; Rep is_digit 1 (Some 2%nat); GClose; Rep date_sep 1 (Some 1%nat);
   GOpen; Rep is_digit 2 (Some 4%nat); GClose; Eol].

(** The class [[‐–—\-]] *)
Definition dash (c : N) : bool :=
  chr_eq UNI_HYPHEN c || chr_eq EN_DASH c || chr_eq EM_DASH c || chr_eq HYPHEN_MINUS c.

(** [_parse_time(cell_value)] *)
Definition _parse_time (cell_value : pystr) : result (datetime.time * datetime.time) :=
  if bool_decide (cell_value = []) then Raise (ValueError (py "Empty time"))
  else
    match re_split_class dash cell_value with
    | [p0; p1] =>
        t1 <~ datetime.strptime_HM (str_strip p0) ;;
        t2 <~ datetime.strptime_HM (str_strip p1) ;;
        Ok (t1, t2)
    | _ => Raise (ValueError cell_value)
    end.

(** [_safe_str(v)] *)
Definition _safe_str (v : cell) : pystr :=
  match v with
  | CNone => []
  | _ => str_strip (py_str v)
  end.

(** The first [try] block of the row loop: the date of the row from the
    value bound to [date_val]. *)
Definition parse_date_cell (date_val : cell) : result datetime.date :=
  match date_val with
  | CDateTime dt => Ok (datetime.date_part dt)
  | CDate d => Ok d
  | CStr s =>
      match re_match DATE_CELL_RE s with
      | Some [g1; g2; g3] =>
          day <~ py_int g1 ;;
          month <~ py_int g2 ;;
          year <~ py_int g3 ;;
          let year := if year <? 100 then year + 2000 else year in
          datetime.date_new year month day
      | _ => Raise (ValueError s)
      end
  | _ => Raise (TypeError (py "expected string or bytes-like object"))
  end.

(** One turn of [any(GROUP_RE.search(str(cell or "")) for cell in row)] *)
Definition has_group_code (c : cell) : bool :=
  bool_decide (is_Some (re_search GROUP_RE (if truthy c then py_str c else []))).

(** The header scan over rows 1 to 10: the first row with a group code,
    and the value the loop leaves in [header_row_idx]. *)
Definition find_header (ws : worksheet) : option (list cell) :=
  List.find (existsb has_group_code) (take 10 ws).

Definition header_row_idx (ws : worksheet) : result Z :=
  match find_header ws with
  | Some (c0 :: _) => Ok (default 1 (getattr_row c0))
  | Some [] => Raise (IndexError (py "tuple index out of range"))
  | None => Raise (RuntimeError (py "Group header not found in Excel"))
  end.

Definition unpack_error (got : nat) : exception :=
  ValueError (py "not enough values to unpack (expected 6, got "
              ++ str_of_int (Z.of_nat got) ++ py ")").

Definition none_if_empty (s : pystr) : option pystr :=
  if bool_decide (s = []) then None else Some s.

(** The body of the row loop for one row: [Ok None] when the row is
    skipped ([continue]), [Ok (Some lesson)] when a lesson is appended. *)
Definition parse_row (row : list cell) : result (option Lesson) :=
  match _safe_str <$> take 6 row with
  | [date_val; time_val; subject_val; teacher_val; room_val; group_val] =>
      if negb (truthy (CStr date_val) && truthy (CStr time_val)
               && truthy (CStr subject_val) && truthy (CStr group_val))
      then Ok None
      else
        match parse_date_cell (CStr date_val) with
        | Raise _ => Ok None
        | Ok lesson_date =>
            match _parse_time time_val with
            | Raise _ => Ok None
            | Ok (start_t, end_t) =>
                Ok (Some {| group_code := str_upper group_val;
                            date := lesson_date;
                            start_time := start_t;
                            end_time := end_t;
                            subject := subject_val;
                            teacher := none_if_empty teacher_val;
                            room := none_if_empty room_val |})
            end
        end
  | vals => Raise (unpack_error (length vals))
  end.

Fixpoint parse_rows (rows : worksheet) (lessons : list Lesson) : result (list Lesson) :=
  match rows with
  | [] => Ok lessons
  | row :: rest =>
      r <~ parse_row row ;;
      parse_rows rest (match r with Some l => lessons ++ [l] | None => lessons end)
  end.

(** [parse_excel(path)], from the rows of the workbook's active sheet on.
    The data loop starts at [min_row = header_row_idx + 1]. *)
Definition parse_excel (ws : worksheet) : result (list Lesson) :=
  idx <~ header_row_idx ws ;;
  parse_rows (drop (Z.to_nat idx) ws) [].


(** ** The loader *)

(** [upsert_source_file(meta, db)] *)
Definition upsert_source_file (meta : SourceFileMeta) : Eff Session Z :=
  res <- session.execute (fun t =>
           models.SourceFile.id <$>
             filter (fun sf => models.SourceFile.sha256 sf = sha256 meta) (models.source_file t)) ;;
  existing_id <- lift (session.scalar_one_or_none res) ;;
  let insert : Eff Session Z :=
    sf_id <- session.add
               (fun t => models.SourceFile.id <$> models.source_file t)
               (fun id t =>
                  models.with_source_file t
                    (models.source_file t ++
                       [models.SourceFile.mk id (url meta) (sha256 meta) (semester meta)])) ;;
    session.flush ;;;
    ret sf_id in
  match existing_id with
  | Some id => if negb (id =? 0) then ret id else insert    (* [if existing_id:] *)
  | None => insert
  end.

(** The three dictionaries local to [bulk_insert_lessons] *)
Record caches : Type := mk_caches {
  group_cache : gmap pystr Z;
  room_cache : gmap pystr Z;
  teacher_cache : gmap pystr Z;
}.

Definition unknown_group (group_code : pystr) : exception :=
  RuntimeError (py "Unknown group " ++ group_code ++ py "; import group seeds first").

(** [_get_group(group_code)] *)
Definition _get_group (group_code : pystr) (c : caches) : Eff Session (Z * caches) :=
  match group_cache c !! group_code with
  | Some gid => ret (gid, c)
  | None =>
      res <- session.execute (fun t =>
               models.Group.id <$>
                 filter (fun g => models.Group.code g = group_code) (models.group t)) ;;
      gid <- lift (session.scalar_one_or_none res) ;;
      match gid with
      | None => raise (unknown_group group_code)
      | Some gid =>
          ret (gid, {| group_cache := <[group_code := gid]> (group_cache c);
                       room_cache := room_cache c; teacher_cache := teacher_cache c |})
      end
  end.

(** [room_name.partition("-") if "-" in room_name else ("", "", room_name)],
    as the pair bound to [building] and [number] *)
Definition room_key (room_name : pystr) : pystr * pystr :=
  if str_contains (py "-") room_name then
    let '(building, _, number) := str_partition (py "-") room_name in (building, number)
  else ([], room_name).

(** [_get_or_create_room(room_name)] *)
Definition _get_or_create_room (room_name : pystr) (c : caches) : Eff Session (Z * caches) :=
  match room_cache c !! room_name with
  | Some rid => ret (rid, c)
  | None =>
      let '(building, number) := room_key room_name in
      res <- session.execute (fun t =>
               models.Room.id <$>
                 filter (fun r => models.Room.building r = building
                                  /\ models.Room.number r = number) (models.room t)) ;;
      rid <- lift (session.scalar_one_or_none res) ;;
      rid <- match rid with
             | Some rid => ret rid
             | None =>
                 rid <- session.add
                          (fun t => models.Room.id <$> models.room t)
                          (fun id t =>
                             models.with_room t
                               (models.room t ++ [models.Room.mk id building number])) ;;
                 session.flush ;;;
                 ret rid
             end ;;
      ret (rid, {| group_cache := group_cache c;
                   room_cache := <[room_name := rid]> (room_cache c);
                   teacher_cache := teacher_cache c |})
  end.

(** [_get_or_create_teacher(name)] *)
Definition _get_or_create_teacher (name : pystr) (c : caches) : Eff Session (Z * caches) :=
  match teacher_cache c !! name with
  | Some tid => ret (tid, c)
  | None =>
      res <- session.execute (fun t =>
               models.Teacher.id <$>
                 filter (fun x => models.Teacher.name x = name) (models.teacher t)) ;;
      tid <- lift (session.scalar_one_or_none res) ;;
      tid <- match tid with
             | Some tid => ret tid
             | None =>
                 tid <- session.add
                          (fun t => models.Teacher.id <$> models.teacher t)
                          (fun id t =>
                             models.with_teacher t
                               (models.teacher t ++ [models.Teacher.mk id name])) ;;
                 session.flush ;;;
                 ret tid
             end ;;
      ret (tid, {| group_cache := group_cache c;
                   room_cache := room_cache c;
                   teacher_cache := <[name := tid]> (teacher_cache c) |})
  end.

(** [x if s else None] for an optional [str] [s] *)
Definition when_truthy {A} (s : option pystr) (c : caches)
    (f : pystr -> caches -> Eff Session (A * caches)) : Eff Session (option A * caches) :=
  match s with
  | Some (ch :: rest) => p <- f (ch :: rest) c ;; ret (Some (fst p), snd p)
  | Some [] | None => ret (None, c)
  end.

(** The [for rec in lessons] loop of [bulk_insert_lessons] *)
Fixpoint insert_lessons (lessons : list Lesson) (source_id : Z) (c : caches)
    : Eff Session unit :=
  match lessons with
  | [] => ret tt
  | rec :: rest =>
      g <- _get_group (group_code rec) c ;;
      r <- when_truthy (room rec) (snd g) _get_or_create_room ;;
      t <- when_truthy (teacher rec) (snd r) _get_or_create_teacher ;;
      session.add
        (fun tb => models.Lesson.id <$> models.lesson tb)
        (fun id tb =>
           models.with_lesson tb
             (models.lesson tb ++
                [models.Lesson.mk id (fst g) (date rec) (start_time rec) (end_time rec)
                   (subject rec) (fst t) (fst r) (Some source_id)])) ;;;
      insert_lessons rest source_id (snd t)
  end.

(** [bulk_insert_lessons(lessons, source_id, db)] *)
Definition bulk_insert_lessons (lessons : list Lesson) (source_id : Z) : Eff Session unit :=
  insert_lessons lessons source_id {| group_cache := ∅; room_cache := ∅; teacher_cache := ∅ |} ;;;
  session.commit.

(** ** Discovery and download *)

Definition SCHEDULE_URL : pystr := py "https://guu.ru/student/schedule/".

(** [XLSX_RE = re.compile(r"\.xlsx?$")] *)
Definition XLSX_RE : list re_item :=
  [Lit 46; Lit 120; Lit 108; Lit 115; Rep (chr_eq 120) 0 (Some 1%nat); Eol].

(** A file on disk: what [sha256_path] and [load_workbook(...).active]
    give for it. *)
Record local_file : Type := mk_local_file {
  sha256_path : result pystr;
  load_workbook : result worksheet;
}.

(** A response of the HTTP client, as far as the program looks at it:
    what [r.raise_for_status()] does, the [href] attributes of the [a]
    elements that [BeautifulSoup(r.text, "html.parser").select("a")]
    finds ([None] for an element without one), and the file that
    [r.content] makes when it is written to disk. *)
Record Response : Type := mk_Response {
  raise_for_status : result unit;
  anchors : list (option pystr);
  content : local_file;
}.

(** The network during one run: what [client.get(url)] gives. *)
Record network : Type := mk_network {
  client_get : pystr -> result Response;
}.

(** The loop of [list_files] over [soup.select("a")] *)
Fixpoint collect_links (hrefs : list (option pystr)) (links : list _FileLink)
    : result (list _FileLink) :=
  match hrefs with
  | [] => Ok links
  | None :: rest => collect_links rest links
  | Some href :: rest =>
      if negb (bool_decide (href = [])) && bool_decide (is_Some (re_search XLSX_RE href)) then
        u <~ httpx.URL.new href [("base"%string, SCHEDULE_URL)] ;;
        collect_links rest (links ++ [{| link_url := u; filename := pathlib.name href |}])
      else collect_links rest links
  end.

(** [list_files()] *)
Definition list_files (net : network) : result (list _FileLink) :=
  r <~ client_get net SCHEDULE_URL ;;
  _ <~ raise_for_status r ;;
  collect_links (anchors r) [].

(** [download(url)], into a fresh temporary directory *)
Definition download (net : network) (url : pathlib.arg) : result local_file :=
  p <~ pathlib.Path url ;;
  let filename := pathlib.name p in
  r <~ client_get net p ;;
  _ <~ raise_for_status r ;;
  if bool_decide (filename = []) then Raise (OSError (py "Is a directory"))
  else Ok (content r).

(** ** The sync orchestrator *)

(** The state [sync] runs against: the caller's session and the records
    written by [logger.exception] (the URL and the exception). *)
Record app : Type := mk_app {
  db : Session;
  log : list (pystr * exception);
}.

Definition in_db {A} (m : Eff Session A) : Eff app A :=
  fun a => let '(r, s) := m (db a) in (r, {| db := s; log := log a |}).

Definition logger_exception (u : pystr) (e : exception) : Eff app unit :=
  modify (fun a => {| db := db a; log := log a ++ [(u, e)] |}).

(** [links[:limit]] *)
Definition slice_to {A} (l : list A) (limit : Z) : list A :=
  if limit <? 0 then take (length l - Z.to_nat (- limit)) l else take (Z.to_nat limit) l.

(** The body of the [try] for one link *)
Definition process_link (net : network) (link : _FileLink) : Eff app unit :=
  path <- lift (download net (pathlib.of_URL (link_url link))) ;;
  file_hash <- lift (sha256_path path) ;;
  let meta := {| url := httpx.URL.text (link_url link); sha256 := file_hash;
                 semester := None |} in
  sf_id <- in_db (upsert_source_file meta) ;;
  if sf_id =? 0 then ret tt                                  (* [if not sf_id: continue] *)
  else
    ws <- lift (load_workbook path) ;;
    lessons <- lift (parse_excel ws) ;;
    in_db (bulk_insert_lessons lessons sf_id).

(** [if limit: links = links[:limit]] *)
Definition limit_links (limit : option Z) (links : list _FileLink) : list _FileLink :=
  match limit with
  | Some n => if n =? 0 then links else slice_to links n
  | None => links
  end.

(** [sync(db, limit=limit)] *)
Definition sync (net : network) (limit : option Z) : Eff app unit :=
  links <- lift (list_files net) ;;
  for_each (limit_links limit links) (fun link =>
    try_except (process_link net link)
               (fun e => logger_exception (httpx.URL.text (link_url link)) e)).

End fetcher_parser.

(* ===================================================================== *)
(** * app/bot.py: the session helper and the day and week views *)
(* ===================================================================== *)

Module bot.

(** [get_session()]: [body] is the block under [async with get_session()
    as db].  The state is the database; the session lives for the block. *)
Definition get_session {A} (body : Eff Session A) : Eff models.tables A :=
  fun database =>
    let '(r, s) :=
      try_except (a <- body ;; session.commit ;;; ret a)
                 (fun e => session.rollback ;;; raise e)
                 (session.open database) in
    (r, committed s).

(** The module-level caches.  Entries leave a [TTLCache] when they
    expire or when it is full; neither is part of this development. *)
Record state : Type := mk_state {
  database : models.tables;
  DAY_CACHE : gmap (Z * pystr) pystr;
  WEEK_CACHE : gmap (Z * pystr) pystr;
}.

Definition in_database {A} (m : Eff models.tables A) : Eff state A :=
  fun st =>
    let '(r, d) := m (database st) in
    (r, {| database := d; DAY_CACHE := DAY_CACHE st; WEEK_CACHE := WEEK_CACHE st |}).

(** [ORDER BY start_time] *)
Definition time_le (a b : datetime.time) : bool :=
  let key t := ((datetime.hour t * 60 + datetime.minute t) * 60 + datetime.second t) * 1000000
               + datetime.microsecond t in
  key a <=? key b.

Fixpoint insert_by_start (les : models.Lesson.t) (l : list models.Lesson.t) : list models.Lesson.t :=
  match l with
  | [] => [les]
  | x :: rest =>
      if time_le (models.Lesson.start_time x) (models.Lesson.start_time les)
      then x :: insert_by_start les rest
      else les :: x :: rest
  end.

Definition order_by_start_time (l : list models.Lesson.t) : list models.Lesson.t :=
  foldr insert_by_start [] (rev l).

(** [les.teacher] and [les.room]: the class [Lesson] of [db/models.py]
    has the columns [teacher_id] and [room_id] and no attribute of
    these names, so the access raises. *)
Definition lesson_teacher (les : models.Lesson.t) : result (option models.Teacher.t) :=
  Raise (AttributeError (py "'Lesson' object has no attribute 'teacher'")).

Definition lesson_room (les : models.Lesson.t) : result (option models.Room.t) :=
  Raise (AttributeError (py "'Lesson' object has no attribute 'room'")).

(** ["{:%H:%M}".format(t)] *)
Definition format_HM (t : datetime.time) : pystr :=
  zpad 2 (datetime.hour t) ++ py ":" ++ zpad 2 (datetime.minute t).

(** One turn of the loop over [enumerate(lessons, 1)]: the line of the
    [i]-th lesson *)
Definition lesson_line (i : Z) (les : models.Lesson.t) : result pystr :=
  let t_str := format_HM (models.Lesson.start_time les) ++ py "–"
               ++ format_HM (models.Lesson.end_time les) in
  teacher_rel <~ lesson_teacher les ;;
  let teacher := match teacher_rel with
                 | Some t => NEWLINE :: py "_преп.: " ++ models.Teacher.name t ++ py "_"
                 | None => []
                 end in
  room_rel <~ lesson_room les ;;
  let room := match room_rel with
              | Some r => py " (" ++ models.Room.building r ++ py "-"
                          ++ models.Room.number r ++ py ")"
              | None => []
              end in
  Ok (str_of_int i ++ py ". `" ++ t_str ++ py "` **" ++ models.Lesson.subject les
      ++ py "**" ++ room ++ teacher).

Fixpoint lesson_lines (i : Z) (lessons : list models.Lesson.t) : result (list pystr) :=
  match lessons with
  | [] => Ok []
  | les :: rest =>
      line <~ lesson_line i les ;;
      lines <~ lesson_lines (i + 1) rest ;;
      Ok (line :: lines)
  end.

(** [_markdown_schedule_for_day(group_id, when)] *)
Definition _markdown_schedule_for_day (group_id : Z) (when : datetime.date) : Eff state pystr :=
  let key := (group_id, datetime.isoformat when) in
  st <- get_state ;;
  match DAY_CACHE st !! key with
  | Some cached => ret cached
  | None =>
      lessons <- in_database (get_session (session.execute (fun t =>
                   order_by_start_time
                     (filter (fun l => models.Lesson.group_id l = group_id
                                       /\ models.Lesson.date l = when) (models.lesson t))))) ;;
      text <- match lessons with
              | [] => ret (py "📅 На " ++ datetime.format_dmY when ++ py " занятий нет!")
              | _ :: _ =>
                  lines <- lift (lesson_lines 1 lessons) ;;
                  ret (str_join [NEWLINE] ((py "📅 **Расписание на " ++ datetime.format_dmY when ++ py "**") :: lines))
              end ;;
      modify (fun st => {| database := database st;
                            DAY_CACHE := <[key := text]> (DAY_CACHE st);
                            WEEK_CACHE := WEEK_CACHE st |}) ;;;
      ret text
  end.

(** The loop of [_markdown_schedule_for_week] over the days
    [monday + timedelta(days=i)], [i] in [offsets] *)
Fixpoint week_texts (group_id : Z) (monday : datetime.date) (offsets : list Z)
    (texts : list pystr) : Eff state (list pystr) :=
  match offsets with
  | [] => ret texts
  | i :: rest =>
      d <- lift (datetime.add_days monday i) ;;
      daily <- _markdown_schedule_for_day group_id d ;;
      if str_contains (py "занятий нет") daily
      then week_texts group_id monday rest texts
      else week_texts group_id monday rest (texts ++ [daily])
  end.

(** [_markdown_schedule_for_week(group_id, monday)] *)
Definition _markdown_schedule_for_week (group_id : Z) (monday : datetime.date) : Eff state pystr :=
  let key := (group_id, datetime.isoformat monday) in
  st <- get_state ;;
  match WEEK_CACHE st !! key with
  | Some cached => ret cached
  | None =>
      texts <- week_texts group_id monday [0; 1; 2; 3; 4; 5] [] ;;
      let result := match texts with
                    | [] => py "ℹ️ На этой неделе занятий нет."
                    | _ :: _ => str_join [NEWLINE; NEWLINE] texts
                    end in
      modify (fun st => {| database := database st;
                            DAY_CACHE := DAY_CACHE st;
                            WEEK_CACHE := <[key := result]> (WEEK_CACHE st) |}) ;;;
      ret result
  end.

(** [cmd_week]: [monday = today - timedelta(days=today.weekday())] *)
Definition monday_of (today : datetime.date) : result datetime.date :=
  datetime.add_days today (- datetime.weekday today).

End bot.

(* ===================================================================== *)
(** * pandas data frames *)
(* ===================================================================== *)

(** A [DataFrame] as [pd.read_csv] returns it: the column labels and the
    rows of values. *)
Record DataFrame : Type := mk_DataFrame {
  columns : list pystr;
  rows : list (list cell);
}.

(** A delimited-text file on disk, by what [pd.read_csv(path)] makes of
    it: the frame of its header line and of all its data rows, or the
    error that pandas raises while it reads them (a [ParserError] for a
    line with more fields than the header has, for one). *)
Record csv_file : Type := mk_csv_file {
  read_csv : result DataFrame;
}.

(** [row.name] on a row of [df.itertuples(index=False)] *)
Definition row_attr (cols : list pystr) (name : pystr) (row : list cell) : option cell :=
  i ← list_find (fun c => c = name) cols ;
  row !! (fst i).

(** Validation of an optional [str] field by pydantic: [None] and [str]
    values pass. *)
Definition validate_optional_str (v : cell) : result (option pystr) :=
  match v with
  | CNone => Ok None
  | CStr s => Ok (Some s)
  | _ => Raise (ValidationError (py "Input should be a valid string"))
  end.

(* ===================================================================== *)
(** * services/google_sheets_import.py: the shared-sheet parser *)
(* ===================================================================== *)

Module google_sheets_import.

Import fetcher_parser.

(** The class [[–—-]] *)
Definition time_dash (c : N) : bool :=
  chr_eq EN_DASH c || chr_eq EM_DASH c || chr_eq HYPHEN_MINUS c.

(** [TIME_RE = re.compile(r"(\\d{1,2}):(\\d{2})\\s*[–—-]\\s*(\\d{1,2}):(\\d{2})")].
    The literal is a raw string in which every backslash is doubled, so
    each [\\] of the pattern stands for one backslash character and the
    [d] and [s] after it for these letters. *)
Definition TIME_RE : list re_item :=
  [GOpen; Lit BACKSLASH; Rep (chr_eq 100) 1 (Some 2%nat); GClose;
   Lit COLON;
   GOpen; Lit BACKSLASH; Rep (chr_eq 100) 2 (Some 2%nat); GClose;
   Lit BACKSLASH; Rep (chr_eq 115) 0 None;
   Rep time_dash 1 (Some 1%nat);
   Lit BACKSLASH; Rep (chr_eq 115) 0 None;
   GOpen; Lit BACKSLASH; Rep (chr_eq 100) 1 (Some 2%nat); GClose;
   Lit COLON;
   GOpen; Lit BACKSLASH; Rep (chr_eq 100) 2 (Some 2%nat); GClose].

Section df_to_lessons.

(** The order in which Python iterates over a set is not specified. *)
Variable set_iter : gset pystr -> list pystr.

(** [df.rename(columns={c.lower().strip(): c for c in df.columns})] *)
Definition rename_lower (cols : list pystr) : list pystr :=
  let mapping : gmap pystr pystr :=
    foldl (fun m c => <[str_strip (str_lower c) := c]> m) ∅ cols in
  (fun c => default c (mapping !! c)) <$> cols.

(** The renaming of [group] to [group_code] *)
Definition rename_group (cols : list pystr) : list pystr :=
  if bool_decide (py "group_code" ∉ cols) && bool_decide (py "group" ∈ cols)
  then (fun c => if bool_decide (c = py "group") then py "group_code" else c) <$> cols
  else cols.

Definition required : gset pystr :=
  {[ py "group_code"; py "date"; py "time"; py "subject" ]}.

Definition attr (cols : list pystr) (name : string) (row : list cell) : result cell :=
  match row_attr cols (py name) row with
  | Some v => Ok v
  | None => Raise (AttributeError (py name))
  end.

(** The body of the loop over [df.itertuples(index=False)] *)
Definition row_to_lesson (cols : list pystr) (row : list cell) : result (option Lesson) :=
  time_v <~ attr cols "time" row ;;
  match re_match TIME_RE (py_str time_v) with
  | None => Ok None
  | Some groups =>
      match groups with
      | [g1; g2; g3; g4] =>
          sh <~ py_int g1 ;; sm <~ py_int g2 ;; eh <~ py_int g3 ;; em <~ py_int g4 ;;
          start_t <~ datetime.time_new sh sm ;;
          end_t <~ datetime.time_new eh em ;;
          raw_date <~ attr cols "date" row ;;
          lesson_date <~ match raw_date with
                         | CDateTime dt => Ok (datetime.date_part dt)
                         | v => datetime.strptime_dmY (py_str v)
                         end ;;
          group_v <~ attr cols "group_code" row ;;
          subject_v <~ attr cols "subject" row ;;
          match validate_optional_str (default CNone (row_attr cols (py "teacher") row)),
                validate_optional_str (default CNone (row_attr cols (py "room") row)) with
          | Ok teacher_v, Ok room_v =>
              Ok (Some {| group_code := str_upper (py_str group_v);
                          date := lesson_date;
                          start_time := start_t;
                          end_time := end_t;
                          subject := py_str subject_v;
                          teacher := teacher_v;
                          room := room_v |})
          | _, _ => Ok None
          end
      | _ => Raise (ValueError (py "not enough values to unpack"))
      end
  end.

Fixpoint rows_to_lessons (cols : list pystr) (rs : list (list cell)) (lessons : list Lesson)
    : result (list Lesson) :=
  match rs with
  | [] => Ok lessons
  | row :: rest =>
      r <~ row_to_lesson cols row ;;
      rows_to_lessons cols rest (match r with Some l => lessons ++ [l] | None => lessons end)
  end.

(** [_df_to_lessons(df)] *)
Definition _df_to_lessons (df : DataFrame) : result (list Lesson) :=
  let cols := rename_group (rename_lower (columns df)) in
  let missing := required ∖ list_to_set cols in
  if negb (bool_decide (missing = ∅)) then
    Raise (ValueError (py "В таблице нет колонок: " ++ str_join (py ", ") (set_iter missing)))
  else rows_to_lessons cols (rows df) [].

End df_to_lessons.

End google_sheets_import.

(* ===================================================================== *)
(** * app/handlers/admin.py: the delimited-text parser and the import *)
(* ===================================================================== *)

Module admin.

Import fetcher_parser.

Section parse_csv.

(** The order in which Python iterates over a set is not specified. *)
Variable set_iter : gset pystr -> list pystr.

(** [pd.to_datetime] on one value: pandas' coercion of dates and times. *)
Variable to_datetime : cell -> result datetime.datetime.

Definition required : gset pystr :=
  {[ py "group_code"; py "date"; py "start_time"; py "end_time"; py "subject" ]}.

Definition attr (cols : list pystr) (name : string) (row : list cell) : result cell :=
  match row_attr cols (py name) row with
  | Some v => Ok v
  | None => Raise (AttributeError (py name))
  end.

(** The [Lesson(...)] of one row *)
Definition row_to_lesson (cols : list pystr) (row : list cell) : result Lesson :=
  group_v <~ attr cols "group_code" row ;;
  date_v <~ attr cols "date" row ;;
  d <~ to_datetime date_v ;;
  start_v <~ attr cols "start_time" row ;;
  st <~ to_datetime start_v ;;
  end_v <~ attr cols "end_time" row ;;
  et <~ to_datetime end_v ;;
  subject_v <~ attr cols "subject" row ;;
  teacher_v <~ validate_optional_str (default CNone (row_attr cols (py "teacher") row)) ;;
  room_v <~ validate_optional_str (default CNone (row_attr cols (py "room") row)) ;;
  Ok {| group_code := str_upper (py_str group_v);
        date := datetime.date_part d;
        start_time := datetime.time_part st;
        end_time := datetime.time_part et;
        subject := py_str subject_v;
        teacher := teacher_v;
        room := room_v |}.

Fixpoint rows_to_lessons (cols : list pystr) (rs : list (list cell)) (lessons : list Lesson)
    : result (list Lesson) :=
  match rs with
  | [] => Ok lessons
  | row :: rest =>
      l <~ row_to_lesson cols row ;;
      rows_to_lessons cols rest (lessons ++ [l])
  end.

(** [_parse_csv(path)] *)
Definition _parse_csv (path : csv_file) : result (list Lesson) :=
  df <~ read_csv path ;;
  let missing := required ∖ list_to_set (columns df) in
  if negb (bool_decide (missing = ∅)) then
    Raise (ValueError (py "CSV missing columns: " ++ str_join (py ", ") (set_iter missing)))
  else rows_to_lessons (columns df) (rows df) [].

End parse_csv.

(** [_import_lessons(lessons, source)] *)
Definition _import_lessons (lessons : list Lesson) (source : SourceFileMeta)
    : Eff models.tables Z :=
  bot.get_session (
    source_id <- upsert_source_file source ;;
    bulk_insert_lessons lessons source_id) ;;;
  ret (Z.of_nat (length lessons)).

(** [admin_sync_cmd], for an administrator: the session of
    [get_session()] is handed to [sync]. The answers sent to the chat are
    left out; the log of [sync] is returned. *)
Definition admin_sync_cmd (net : network) : Eff models.tables (list (pystr * exception)) :=
  bot.get_session (fun s =>
    let '(r, a) := sync net None {| db := s; log := [] |} in
    (match r with Ok _ => Ok (log a) | Raise e => Raise e end, db a)).

End admin.

(* ===================================================================== *)
(** * Sample inputs *)
(* ===================================================================== *)

Module examples.

Import fetcher_parser.

Definition text_row (cells : list string) : list cell := (fun s => CStr (py s)) <$> cells.

(** A sheet whose first row carries the group code, and one lesson. *)
Definition captions : list cell :=
  text_row ["Дата"; "Время"; "Предмет"; "Преподаватель"; "Аудитория"; "Группа ИС-101"].
Definition maths_row : list cell :=
  text_row ["01.09.24"; "10:30–12:05"; "Математика"; "Иванов"; "Б-204"; "ис-101"].
Definition physics_row : list cell :=
  text_row ["02.09.24"; "09:00-10:30"; "Физика"; ""; "101"; "ИС-101"].
Definition unknown_group_row : list cell :=
  text_row ["02.09.24"; "12:15-13:45"; "История"; ""; ""; "ЭК-205"].

Definition t (h m : Z) : datetime.time := datetime.mk_time h m 0 0.

Definition maths : Lesson :=
  {| group_code := py "ИС-101"; date := datetime.mk_date 2024 9 1;
     start_time := t 10 30; end_time := t 12 5; subject := py "Математика";
     teacher := Some (py "Иванов"); room := Some (py "Б-204") |}.
Definition physics : Lesson :=
  {| group_code := py "ИС-101"; date := datetime.mk_date 2024 9 2;
     start_time := t 9 0; end_time := t 10 30; subject := py "Физика";
     teacher := None; room := Some (py "101") |}.

Definition history : Lesson :=
  {| group_code := py "ЭК-205"; date := datetime.mk_date 2024 9 2;
     start_time := t 12 15; end_time := t 13 45; subject := py "История";
     teacher := None; room := None |}.

Definition sheet_one_lesson : worksheet := [captions; maths_row].

(** The same lesson with the date as a native [datetime] cell. *)
Definition maths_row_native : list cell :=
  CDateTime (datetime.mk_datetime (datetime.mk_date 2024 9 1) (t 0 0)) :: drop 1 maths_row.
Definition maths_row_native_date : list cell :=
  CDate (datetime.mk_date 2024 9 1) :: drop 1 maths_row.

(** A sheet with a title in row 1, column captions without a group code
    in row 2 and the lessons from row 3 on: row 3 is the first row with
    a group code. *)
Definition plain_captions : list cell :=
  text_row ["Дата"; "Время"; "Предмет"; "Преподаватель"; "Аудитория"; "Группа"].
Definition title_row : list cell :=
  CStr (py "Расписание занятий") :: replicate 5 CNone.
Definition sheet_titled : worksheet := [title_row; plain_captions; maths_row; physics_row].

(** A sheet of six columns whose second row holds three cells. *)
Definition sheet_short_row : sheet_cells :=
  [captions; text_row ["01.09.24"; "10:30-12:05"; "Математика"]; maths_row].

(** The caches at the start of [bulk_insert_lessons]. *)
Definition no_caches : caches := {| group_cache := ∅; room_cache := ∅; teacher_cache := ∅ |}.

(** A sheet of five columns. *)
Definition sheet_five_columns : sheet_cells :=
  [text_row ["Дата"; "Время"; "Предмет"; "Аудитория"; "Группа ИС-101"];
   text_row ["01.09.24"; "10:30-12:05"; "Математика"; "Б-204"; "ИС-101"]].

(** A database in which the group ИС-101 is seeded and nothing else is. *)
Definition seeded : models.tables :=
  {| models.group := [models.Group.mk 1 1 (py "ИС-101") 1];
     models.teacher := []; models.room := [];
     models.source_file := []; models.lesson := [] |}.

(** A database in which two faculties have a group ИС-101. *)
Definition two_faculties : models.tables :=
  {| models.group := [models.Group.mk 1 1 (py "ИС-101") 1; models.Group.mk 2 2 (py "ИС-101") 1];
     models.teacher := []; models.room := [];
     models.source_file := []; models.lesson := [] |}.

Definition digest_a : pystr :=
  py "5891b5b522d5df086d0ff0b110fbd9d21bb4fc7163af34d08286a2e846f6be03".
Definition digest_b : pystr :=
  py "e3b0c44298fc1c149afbf4c8996fb92427ae41e4649b934ca495991b7852b855".

Definition file_one_lesson : local_file :=
  {| sha256_path := Ok digest_a; load_workbook := Ok sheet_one_lesson |}.

(** The same content uploaded under two names: the records that
    [admin_upload] hands to [_import_lessons]. *)
Definition uploaded (file_name : string) : SourceFileMeta :=
  {| url := py "uploaded:" ++ py file_name; sha256 := digest_a; semester := None |}.

(** The listing page with [a] elements of the given [href]s, served with
    a success status; every other URL serves [file_one_lesson]. *)
Definition listing_page (hrefs : list string) : Response :=
  {| raise_for_status := Ok tt;
     anchors := (fun h => Some (py h)) <$> hrefs;
     content := {| sha256_path := Ok digest_b;
                   load_workbook := Raise (InvalidFileException (py "File is not a zip file")) |} |}.
Definition site_listing (hrefs : list string) : network :=
  {| client_get := fun u =>
       if bool_decide (u = SCHEDULE_URL) then Ok (listing_page hrefs)
       else Ok {| raise_for_status := Ok tt; anchors := []; content := file_one_lesson |} |}.

(** The listing page cannot be fetched. *)
Definition site_down : network :=
  {| client_get := fun _ => Raise (HTTPError (py "ConnectError")) |}.

Definition fresh (database : models.tables) : app :=
  {| db := session.open database; log := [] |}.

(** A shared sheet with one row. *)
Definition sheet_frame (time_cell : string) : DataFrame :=
  {| columns := [py "group_code"; py "date"; py "time"; py "subject"];
     rows := [text_row ["ИС-101"; "01.09.2024"; time_cell; "Математика"]] |}.

(** A delimited-text file without the column [subject]. *)
Definition frame_without_subject : DataFrame :=
  {| columns := [py "group_code"; py "date"; py "start_time"; py "end_time"; py "teacher"];
     rows := [text_row ["ИС-101"; "01.09.2024"; "10:30"; "12:05"; "Иванов"]] |}.
Definition file_without_subject : csv_file := {| read_csv := Ok frame_without_subject |}.

(** A file with the same header line and a sixth field in its third
    line, which pandas refuses while it reads the rows. *)
Definition file_ragged : csv_file :=
  {| read_csv := Raise (ParserError
       (py "Error tokenizing data. C error: Expected 5 fields in line 3, saw 6"
        ++ [NEWLINE])) |}.

(** Coercion by [pd.to_datetime] for the values of the samples: a native
    datetime is kept. *)
Definition to_datetime_native (v : cell) : result datetime.datetime :=
  match v with
  | CDateTime dt => Ok dt
  | _ => Raise (ValueError (py "Unknown datetime string format"))
  end.

(** The database after the import of one lesson on Wednesday,
    2024-09-04, and the bot with empty caches. *)
Definition wednesday_only : models.tables :=
  models.with_lesson seeded
    [models.Lesson.mk 1 1 (datetime.mk_date 2024 9 4) (t 10 30) (t 12 5)
       (py "Математика") None None None].

Definition cold (database : models.tables) : bot.state :=
  {| bot.database := database; bot.DAY_CACHE := ∅; bot.WEEK_CACHE := ∅ |}.

(** The position (from 1) of the first row among the first ten that
    carries a group code: the header boundary as the description of the
    parser has it. *)
Definition header_position (ws : worksheet) : option nat :=
  (fun p => S (fst p)) <$> list_find (fun row => existsb has_group_code row = true) (take 10 ws).

End examples.

(* ===================================================================== *)
(** * Notions used in the properties *)
(* ===================================================================== *)

Section notions.

Import fetcher_parser.

(** The characters 0 to 9. *)
Definition ascii_digit (c : N) : Prop := (48 <= c <= 57)%N.

(** The date of a cell that holds a native date or datetime. *)
Definition native_date (v : cell) : option datetime.date :=
  match v with
  | CDate d => Some d
  | CDateTime dt => Some (datetime.date_part dt)
  | _ => None
  end.


(** The session sees the groups [G] and the database holds them. *)
Definition groups_are (G : list models.Group.t) (s : Session) : Prop :=
  models.group (current s) = G /\ models.group (committed s) = G.

(** A computation that neither commits nor touches the groups. *)
Definition stable {A} (m : Eff Session A) : Prop :=
  forall s, committed (snd (m s)) = committed s
            /\ forall G, groups_are G s -> groups_are G (snd (m s)).

(** The group cache only ever holds codes that were found among the
    groups [G]. *)
Definition cache_within (G : list models.Group.t) (c : caches) : Prop :=
  forall code gid, group_cache c !! code = Some gid ->
                   exists g, g ∈ G /\ models.Group.code g = code.

(** What holds of the value of a computation whenever it returns. *)
Definition returns {A} (m : Eff Session A) (Q : A -> Prop) : Prop :=
  forall s, match fst (m s) with Ok a => Q a | Raise _ => True end.

(** The session is usable: no flush has failed and the rows it sees
    satisfy the constraints of the tables. *)
Definition usable (s : Session) : Prop :=
  inactive s = false /\ models.constraints_ok (current s) = true.

(** The session after [db.add] of a row: [t'] is what it sees then. *)
Definition added (s : Session) (t' : models.tables) : Session :=
  {| committed := committed s; current := t'; inactive := inactive s |}.

(** The row that [upsert_source_file] adds for [meta]. *)
Definition new_source_file (meta : SourceFileMeta) (t : models.tables) : models.SourceFile.t :=
  models.SourceFile.mk (models.next_id (models.SourceFile.id <$> models.source_file t))
    (url meta) (sha256 meta) (semester meta).

Definition with_room_cache (c : caches) (name : pystr) (rid : Z) : caches :=
  {| group_cache := group_cache c; room_cache := <[name := rid]> (room_cache c);
     teacher_cache := teacher_cache c |}.

Definition with_teacher_cache (c : caches) (name : pystr) (tid : Z) : caches :=
  {| group_cache := group_cache c; room_cache := room_cache c;
     teacher_cache := <[name := tid]> (teacher_cache c) |}.

Definition with_group_cache (c : caches) (code : pystr) (gid : Z) : caches :=
  {| group_cache := <[code := gid]> (group_cache c); room_cache := room_cache c;
     teacher_cache := teacher_cache c |}.

(** A step of the loader that went through: the session is still usable,
    nothing is committed, and the lessons and groups are as before. *)
Definition resolved (s s' : Session) : Prop :=
  usable s' /\ committed s' = committed s
  /\ models.lesson (current s') = models.lesson (current s)
  /\ models.group (current s') = models.group (current s).

(** The codes of the groups that the database holds. *)
Definition group_codes (t : models.tables) : list pystr := models.Group.code <$> models.group t.

(** An [a] element that [list_files] takes for a link to a spreadsheet:
    its [href] is not empty and [XLSX_RE] finds its ending in it. *)
Definition spreadsheet_link (href : option pystr) : bool :=
  match href with
  | Some h => negb (bool_decide (h = [])) && bool_decide (is_Some (re_search XLSX_RE h))
  | None => false
  end.

(** The error of [httpx.URL(href, base=SCHEDULE_URL)]. *)
Definition base_refused : exception :=
  TypeError (py "'base' is an invalid keyword argument for URL()").

End notions.

(* ===================================================================== *)
(** * Properties of the workbook parser *)
(* ===================================================================== *)

Section workbook_parser.

Import fetcher_parser.

Lemma parse_row_short (row : list cell) :
  (length row < 6)%nat -> parse_row row = Raise (unpack_error (length row)).
Proof.
  intros Hlen.
  destruct row as [|c1 [|c2 [|c3 [|c4 [|c5 [|c6 rest]]]]]]; try reflexivity.
  simpl in Hlen. lia.
Qed.

Lemma parse_row_full (row : list cell) :
  (6 <= length row)%nat -> exists r, parse_row row = Ok r.
Proof.
  intros Hlen.
  destruct row as [|c1 [|c2 [|c3 [|c4 [|c5 [|c6 rest]]]]]]; simpl in Hlen; try lia.
  unfold parse_row. cbn [take fmap list_fmap].
  destruct (negb _); [eauto|].
  destruct (parse_date_cell _); [|eauto].
  destruct (_parse_time _) as [[? ?]|]; eauto.
Qed.

(** The row loop stops with the unpacking error of the first row that
    has fewer than six cells. *)
Lemma parse_rows_short (rows : worksheet) (lessons : list Lesson) (row : list cell) :
  row ∈ rows -> (length row < 6)%nat ->
  exists k, (k < 6)%nat /\ parse_rows rows lessons = Raise (unpack_error k).
Proof.
  intros Hin Hlen. revert lessons.
  induction rows as [|r rows IH]; intros lessons.
  - inversion Hin.
  - destruct (decide (length r < 6)%nat) as [Hr|Hr].
    + exists (length r). split; [done|].
      cbn [parse_rows]. by rewrite parse_row_short.
    + destruct (parse_row_full r) as [x Hx]; [lia|].
      cbn [parse_rows]. rewrite Hx. cbn [rbind].
      apply IH. apply elem_of_cons in Hin as [->|Hin]; [lia|done].
Qed.

(** Whatever row the header scan stops at, [header_row_idx] is left
    at 1. *)
Lemma header_row_idx_found (ws : worksheet) :
  is_Some (find_header ws) -> header_row_idx ws = Ok 1.
Proof.
  intros [row Hrow]. unfold header_row_idx. rewrite Hrow.
  destruct row as [|c0 row].
  - unfold find_header in Hrow. apply find_some in Hrow as [_ Hex]. discriminate.
  - by destruct c0.
Qed.

Lemma header_row_idx_missing (ws : worksheet) :
  find_header ws = None ->
  header_row_idx ws = Raise (RuntimeError (py "Group header not found in Excel")).
Proof. intros H. unfold header_row_idx. by rewrite H. Qed.

(** ** Native dates

    [str] of a date or datetime starts with the four digits of the year,
    which [DATE_CELL_RE] does not match. *)

Lemma ascii_digit_not_space (c : N) : ascii_digit c -> is_space c = false.
Proof.
  unfold ascii_digit, is_space, in_range, chr_eq. intros H.
  rewrite !orb_false_iff, !andb_false_iff, !N.leb_gt, !N.eqb_neq. lia.
Qed.

Lemma ascii_digit_not_sep (c : N) : ascii_digit c -> date_sep c = false.
Proof.
  unfold ascii_digit, date_sep, chr_eq. intros H.
  rewrite !orb_false_iff, !N.eqb_neq. lia.
Qed.

Lemma uint_codes_digits (d : Decimal.uint) : Forall ascii_digit (uint_codes d).
Proof. induction d; constructor; try done; unfold ascii_digit; lia. Qed.

Lemma zpad_digits (w : nat) (z : Z) : 0 <= z -> Forall ascii_digit (zpad w z).
Proof.
  intros Hz. unfold zpad, str_of_int. destruct (z <? 0) eqn:Hneg; [lia|].
  apply Forall_app. split; [|apply uint_codes_digits].
  apply Forall_replicate. unfold ascii_digit. lia.
Qed.

Lemma zpad_length (w : nat) (z : Z) : (w <= length (zpad w z))%nat.
Proof. unfold zpad. rewrite length_app, length_replicate. lia. Qed.

Lemma zpad4_head (z : Z) (rest : pystr) :
  0 <= z ->
  exists c1 c2 c3 tl, zpad 4 z ++ rest = c1 :: c2 :: c3 :: tl
                      /\ ascii_digit c1 /\ ascii_digit c2 /\ ascii_digit c3.
Proof.
  intros Hz. pose proof (zpad_digits 4 z Hz) as Hd. pose proof (zpad_length 4 z) as Hl.
  destruct (zpad 4 z) as [|c1 [|c2 [|c3 tl]]]; cbn in Hl; try lia.
  exists c1, c2, c3, (tl ++ rest). split; [done|].
  inversion Hd as [|? ? H1 Hd1]; subst. inversion Hd1 as [|? ? H2 Hd2]; subst.
  inversion Hd2 as [|? ? H3 Hd3]; subst. done.
Qed.

Lemma lstrip_keeps_tail (l : pystr) (c3 c2 c1 : N) :
  is_space c3 = false ->
  exists l', lstrip (l ++ [c3; c2; c1]) = l' ++ [c3; c2; c1].
Proof.
  intros H3. induction l as [|x l IH].
  - exists []. cbn. by rewrite H3.
  - cbn. destruct (is_space x); [done|]. by exists (x :: l).
Qed.

Lemma str_strip_head (c1 c2 c3 : N) (tl : pystr) :
  is_space c1 = false -> is_space c3 = false ->
  exists tl', str_strip (c1 :: c2 :: c3 :: tl) = c1 :: c2 :: c3 :: tl'.
Proof.
  intros H1 H3. unfold str_strip. cbn [lstrip]. rewrite H1.
  replace (rev (c1 :: c2 :: c3 :: tl)) with (rev tl ++ [c3; c2; c1])
    by (cbn; by rewrite <- !app_assoc).
  destruct (lstrip_keeps_tail (rev tl) c3 c2 c1 H3) as [l' ->].
  exists (rev l'). rewrite rev_app_distr. done.
Qed.

Lemma date_re_needs_separator (c1 c2 c3 : N) (tl : pystr) :
  date_sep c2 = false -> date_sep c3 = false ->
  re_match DATE_CELL_RE (c1 :: c2 :: c3 :: tl) = None.
Proof.
  intros H2 H3. unfold re_match, DATE_CELL_RE.
  cbn [re_run re_rep fmap option_fmap option_map Nat.pred].
  rewrite H2, H3, !andb_false_r, !andb_true_r.
  destruct (is_digit c1), (is_digit c2); reflexivity.
Qed.

Lemma native_date_text_rejected (y : Z) (rest : pystr) :
  0 <= y ->
  parse_date_cell (CStr (str_strip (zpad 4 y ++ rest)))
  = Raise (ValueError (str_strip (zpad 4 y ++ rest))).
Proof.
  intros Hy. destruct (zpad4_head y rest Hy) as (c1 & c2 & c3 & tl & -> & H1 & H2 & H3).
  destruct (str_strip_head c1 c2 c3 tl) as [tl' ->];
    [by apply ascii_digit_not_space|by apply ascii_digit_not_space|].
  unfold parse_date_cell.
  by rewrite date_re_needs_separator by (by apply ascii_digit_not_sep).
Qed.

Lemma safe_str_native (v : cell) (d : datetime.date) :
  native_date v = Some d ->
  exists rest, _safe_str v = str_strip (zpad 4 (datetime.year d) ++ rest).
Proof.
  destruct v; try done; intros [= <-]; cbn [_safe_str py_str].
  - unfold datetime.isoformat. eauto.
  - unfold datetime.str_datetime, datetime.isoformat. rewrite <- !app_assoc. eauto.
Qed.

Lemma parse_row_native_date (v c2 c3 c4 c5 c6 : cell) (rest : list cell) (d : datetime.date) :
  native_date v = Some d -> 0 <= datetime.year d ->
  parse_row (v :: c2 :: c3 :: c4 :: c5 :: c6 :: rest) = Ok None.
Proof.
  intros Hv Hy. destruct (safe_str_native v d Hv) as [tail Hs].
  unfold parse_row. cbn [take fmap list_fmap]. rewrite Hs.
  destruct (negb _); [done|].
  by rewrite native_date_text_rejected.
Qed.

(** ** The width of the rows *)

Lemma max_column_ge (cells : sheet_cells) (row : list cell) :
  row ∈ cells -> (length row <= openpyxl.max_column cells)%nat.
Proof.
  unfold openpyxl.max_column. induction cells as [|r cells IH]; intros Hin; [by inversion Hin|].
  cbn. apply elem_of_cons in Hin as [->|Hin]; [lia|]. specialize (IH Hin). lia.
Qed.

(** Every row that [iter_rows] gives has [max_column] values. *)
Lemma iter_rows_width (cells : sheet_cells) :
  Forall (fun row => length row = openpyxl.max_column cells) (openpyxl.iter_rows cells).
Proof.
  unfold openpyxl.iter_rows. apply Forall_fmap, Forall_forall. intros row Hin. cbn.
  apply elem_of_take in Hin as (i & Hin & _). apply list_elem_of_lookup_2 in Hin.
  pose proof (max_column_ge cells row Hin). rewrite length_app, length_replicate. lia.
Qed.

Lemma max_row_le (cells : sheet_cells) : (openpyxl.max_row cells <= length cells)%nat.
Proof.
  induction cells as [|row cells IH]; [done|]. cbn.
  destruct (openpyxl.max_row cells); [case_bool_decide; cbn; lia|lia].
Qed.

Lemma iter_rows_length (cells : sheet_cells) :
  length (openpyxl.iter_rows cells) = openpyxl.max_row cells.
Proof.
  unfold openpyxl.iter_rows. rewrite length_fmap, length_take.
  pose proof (max_row_le cells). lia.
Qed.

Lemma parse_rows_full (rows : worksheet) :
  forall acc, Forall (fun row => (6 <= length row)%nat) rows ->
              exists lessons, parse_rows rows acc = Ok lessons.
Proof.
  induction rows as [|row rows IH]; intros acc Hall; [by eexists|].
  apply Forall_cons in Hall as [Hrow Hall].
  destruct (parse_row_full row Hrow) as [r Hr]. cbn [parse_rows]. rewrite Hr. cbn [rbind].
  by apply IH.
Qed.

End workbook_parser.

(* ===================================================================== *)
(** * Properties of the string operations *)
(* ===================================================================== *)

Section strings.

Lemma chr_eq_true (a c : N) : chr_eq a c = true <-> a = c.
Proof. unfold chr_eq. apply N.eqb_eq. Qed.

Lemma is_prefix_app (p s : pystr) :
  is_prefix p s = true -> s = p ++ drop (length p) s.
Proof.
  revert s. induction p as [|a p IH]; intros s H; [done|].
  destruct s as [|b s]; [done|]. cbn in H.
  apply andb_true_iff in H as [Hab Hp]. apply chr_eq_true in Hab as ->.
  cbn. f_equal. by apply IH.
Qed.

Lemma is_prefix_self (p s : pystr) : is_prefix p (p ++ s) = true.
Proof.
  induction p as [|a p IH]; [done|]. cbn. rewrite IH.
  by rewrite (proj2 (chr_eq_true a a) eq_refl).
Qed.

(** What [str_find] returns splits the string around the separator. *)
Lemma str_find_Some (sep s before after : pystr) :
  str_find sep s = Some (before, after) -> s = before ++ sep ++ after.
Proof.
  revert before. induction s as [|c s IH]; intros before H.
  - cbn in H. destruct (is_prefix sep []) eqn:Hp; [|done].
    injection H as <- <-. by apply is_prefix_app in Hp.
  - cbn [str_find] in H. destruct (is_prefix sep (c :: s)) eqn:Hp.
    + injection H as <- <-. by apply is_prefix_app in Hp.
    + destruct (str_find sep s) as [[b a]|] eqn:Hf; [|done].
      injection H as <- <-. cbn. f_equal. by apply IH.
Qed.

(** For a separator of one character, the text before it is free of
    that character: the split is at the first occurrence. *)
Lemma str_find_char_first (c : N) (s before after : pystr) :
  str_find [c] s = Some (before, after) -> c ∉ before.
Proof.
  revert before. induction s as [|x s IH]; intros before H.
  - done.
  - cbn [str_find] in H. destruct (is_prefix [c] (x :: s)) eqn:Hp.
    + injection H as <- <-. apply not_elem_of_nil.
    + destruct (str_find [c] s) as [[b a]|] eqn:Hf; [|done].
      injection H as <- <-. apply not_elem_of_cons. split; [|by apply IH].
      intros ->. cbn in Hp. by rewrite (proj2 (chr_eq_true x x) eq_refl) in Hp.
Qed.

Lemma str_find_char_None (c : N) (s : pystr) :
  str_find [c] s = None <-> c ∉ s.
Proof.
  induction s as [|x s IH].
  - split; [intros _; apply not_elem_of_nil|done].
  - cbn [str_find]. cbn [is_prefix]. rewrite andb_true_r.
    destruct (chr_eq c x) eqn:Hcx.
    + apply chr_eq_true in Hcx as ->. split; [done|].
      intros H. exfalso. apply H. by left.
    + assert (c <> x) as Hne by (intros ->; by rewrite (proj2 (chr_eq_true x x) eq_refl) in Hcx).
      destruct (str_find [c] s) as [[b a]|] eqn:Hf.
      * split; [done|]. intros H. exfalso.
        apply not_elem_of_cons in H as [_ H]. by apply IH in H.
      * split; [|done]. intros _. apply not_elem_of_cons. split; [done|].
        by apply IH.
Qed.

Lemma str_contains_char (c : N) (s : pystr) :
  str_contains [c] s = bool_decide (c ∈ s).
Proof.
  unfold str_contains. destruct (str_find [c] s) as [[b a]|] eqn:Hf.
  - symmetry. apply bool_decide_eq_true. destruct (decide (c ∈ s)) as [|Hn]; [done|].
    apply str_find_char_None in Hn. congruence.
  - symmetry. apply bool_decide_eq_false. by apply str_find_char_None.
Qed.

(** A text that holds [m] somewhere contains it. *)
Lemma str_contains_app (m a b : pystr) : str_contains m (a ++ m ++ b) = true.
Proof.
  unfold str_contains. induction a as [|x a IH].
  - cbn [app]. destruct (m ++ b) as [|y r] eqn:Hmb.
    + destruct m; [done|done].
    + cbn [str_find]. rewrite <- Hmb. by rewrite is_prefix_self.
  - cbn [app str_find]. destruct (is_prefix m (x :: a ++ m ++ b)); [done|].
    destruct (str_find m (a ++ m ++ b)) as [[? ?]|]; done.
Qed.

(** [room_key]: the key is split at its first hyphen, and a key without
    a hyphen is a number without a building. *)
Lemma room_key_spec (room_name : pystr) :
  let '(building, number) := fetcher_parser.room_key room_name in
  if bool_decide (HYPHEN_MINUS ∈ room_name)
  then room_name = building ++ HYPHEN_MINUS :: number /\ HYPHEN_MINUS ∉ building
  else building = [] /\ number = room_name.
Proof.
  unfold fetcher_parser.room_key, str_partition. change (py "-") with [HYPHEN_MINUS].
  rewrite str_contains_char.
  destruct (bool_decide (HYPHEN_MINUS ∈ room_name)) eqn:Hin.
  - apply bool_decide_eq_true in Hin.
    destruct (str_find [HYPHEN_MINUS] room_name) as [[before after]|] eqn:Hfind.
    + split; [by apply str_find_Some in Hfind|by apply str_find_char_first in Hfind].
    + by apply str_find_char_None in Hfind.
  - done.
Qed.

End strings.

(* ===================================================================== *)
(** * Properties of the delimited-text parser *)
(* ===================================================================== *)

Section csv_parser.

Import fetcher_parser admin.

Variable set_iter : gset pystr -> list pystr.
Hypothesis set_iter_perm : forall X, set_iter X ≡ₚ elements X.
Variable to_datetime : cell -> result datetime.datetime.

Lemma parse_csv_missing (path : csv_file) (df : DataFrame) (c : pystr) :
  read_csv path = Ok df ->
  c ∈ required -> c ∉ columns df ->
  _parse_csv set_iter to_datetime path =
    Raise (ValueError (py "CSV missing columns: "
                       ++ str_join (py ", ") (set_iter (required ∖ list_to_set (columns df))))).
Proof.
  intros Hread Hreq Hcol. unfold _parse_csv. rewrite Hread. cbn [rbind].
  rewrite bool_decide_eq_false_2; [done|].
  intros Hempty.
  assert (c ∈ required ∖ list_to_set (columns df)) as Hc by set_solver.
  rewrite Hempty in Hc. set_solver.
Qed.

Lemma set_iter_elem_of (X : gset pystr) (c : pystr) : c ∈ set_iter X <-> c ∈ X.
Proof. rewrite (set_iter_perm X). apply elem_of_elements. Qed.

Lemma set_iter_NoDup (X : gset pystr) : NoDup (set_iter X).
Proof. rewrite (set_iter_perm X). apply NoDup_elements. Qed.

End csv_parser.

(* ===================================================================== *)
(** * Properties of the sync orchestrator *)
(* ===================================================================== *)

Section sync_orchestrator.

Import fetcher_parser.

(** [URL()] knows no keyword [base]. *)
Lemma URL_new_base (href base : pystr) :
  httpx.URL.new href [("base"%string, base)] = Raise base_refused.
Proof. vm_compute. reflexivity. Qed.

(** The loop of [list_files] raises at the first spreadsheet link, and
    passes over every other element. *)
Lemma collect_links_spec (hrefs : list (option pystr)) (links : list _FileLink) :
  collect_links hrefs links
  = if existsb spreadsheet_link hrefs then Raise base_refused else Ok links.
Proof.
  induction hrefs as [|[href|] rest IH]; cbn [collect_links existsb spreadsheet_link orb].
  - done.
  - destruct (negb (bool_decide (href = [])) && bool_decide (is_Some (re_search XLSX_RE href))).
    + by rewrite URL_new_base.
    + apply IH.
  - apply IH.
Qed.

Lemma list_files_spec (net : network) :
  list_files net
  = (r <~ client_get net SCHEDULE_URL ;;
     _ <~ raise_for_status r ;;
     if existsb spreadsheet_link (anchors r) then Raise base_refused else Ok []).
Proof.
  unfold list_files. destruct (client_get net SCHEDULE_URL) as [r|]; [|done]. cbn [rbind].
  destruct (raise_for_status r); [|done]. cbn [rbind]. apply collect_links_spec.
Qed.

(** When [list_files] returns, it returns no link. *)
Lemma list_files_Ok (net : network) (links : list _FileLink) :
  list_files net = Ok links -> links = [].
Proof.
  rewrite list_files_spec. destruct (client_get net SCHEDULE_URL) as [r|]; [|done].
  cbn [rbind]. destruct (raise_for_status r); [|done]. cbn [rbind].
  destruct (existsb _ _); [done|]. by intros [= <-].
Qed.

Lemma limit_links_nil (limit : option Z) : limit_links limit [] = [].
Proof.
  destruct limit as [n|]; [|done]. unfold limit_links, slice_to.
  destruct (n =? 0); [done|]. destruct (n <? 0); apply take_nil.
Qed.

Lemma sync_spec (net : network) (limit : option Z) (a : app) :
  sync net limit a = (match list_files net with Ok _ => Ok tt | Raise e => Raise e end, a).
Proof.
  unfold sync, bind, lift.
  destruct (list_files net) as [links|e] eqn:Hl; [|done].
  apply list_files_Ok in Hl as ->. by rewrite limit_links_nil.
Qed.

Lemma in_db_log {A} (m : Eff Session A) (a : app) : log (snd (in_db m a)) = log a.
Proof. unfold in_db. by destruct (m (db a)). Qed.

End sync_orchestrator.

(* ===================================================================== *)
(** * Properties of the loader *)
(* ===================================================================== *)

Section loader.

Import fetcher_parser.

Lemma filter_none {A} (P : A -> Prop) `{forall x, Decision (P x)} (l : list A) :
  (forall x, x ∈ l -> ~ P x) -> filter P l = [].
Proof.
  induction l as [|x l IH]; intros H0; [done|].
  rewrite filter_cons_False by (apply H0; by left).
  apply IH. intros y Hy. apply H0. by right.
Qed.

Lemma stable_ret {A} (a : A) : stable (ret (S:=Session) a).
Proof. by intros s. Qed.

Lemma stable_raise {A} (e : exception) : stable (raise (S:=Session) (A:=A) e).
Proof. by intros s. Qed.

Lemma stable_lift {A} (r : result A) : stable (lift (S:=Session) r).
Proof. by intros s. Qed.

Lemma stable_get_state : stable (get_state (S:=Session)).
Proof. by intros s. Qed.

Lemma stable_bind {A B} (m : Eff Session A) (k : A -> Eff Session B) :
  stable m -> (forall a, stable (k a)) -> stable (bind m k).
Proof.
  intros Hm Hk s. unfold bind. specialize (Hm s).
  destruct (m s) as [[a|e] s1]; cbn [snd] in *; [|done].
  destruct (Hk a s1) as [Hc Hg]. destruct Hm as [Hc1 Hg1].
  split; [congruence|]. intros G HG. apply Hg, Hg1, HG.
Qed.

Lemma stable_flush : stable session.flush.
Proof.
  intros s. unfold session.flush.
  destruct (inactive s); [done|].
  destruct (models.constraints_ok (current s)); [done|].
  split; [done|]. intros G [_ HG]. by split.
Qed.

Lemma stable_execute {A} (q : models.tables -> list A) : stable (session.execute q).
Proof.
  unfold session.execute. apply stable_bind; [apply stable_flush|]. intros _.
  apply stable_bind; [apply stable_get_state|]. intros s. apply stable_ret.
Qed.

Lemma stable_add (ids : models.tables -> list Z) (ins : Z -> models.tables -> models.tables) :
  (forall id t, models.group (ins id t) = models.group t) ->
  stable (session.add ids ins).
Proof.
  intros Hins s. split; [done|]. intros G [H1 H2]. split; [|done].
  cbn. by rewrite Hins.
Qed.

Create HintDb stable.
Hint Resolve stable_ret stable_raise stable_lift stable_get_state stable_flush
  stable_execute : stable.

Ltac stable_step :=
  first
    [ solve [auto with stable]
    | apply stable_add; [intros ? ?; reflexivity]
    | apply stable_bind; [|intros ?]
    | match goal with
      | |- stable (match ?x with _ => _ end) => destruct x
      | |- stable (if ?x then _ else _) => destruct x
      | |- stable (let '(_, _) := ?x in _) => destruct x
      end ].

Lemma stable_upsert_source_file (meta : SourceFileMeta) : stable (upsert_source_file meta).
Proof. unfold upsert_source_file. repeat stable_step. Qed.

Lemma stable_get_group (code : pystr) (c : caches) : stable (_get_group code c).
Proof. unfold _get_group. repeat stable_step. Qed.

Lemma stable_get_or_create_room (name : pystr) (c : caches) :
  stable (_get_or_create_room name c).
Proof. unfold _get_or_create_room. repeat stable_step. Qed.

Lemma stable_get_or_create_teacher (name : pystr) (c : caches) :
  stable (_get_or_create_teacher name c).
Proof. unfold _get_or_create_teacher. repeat stable_step. Qed.

Lemma stable_when_truthy {A} (v : option pystr) (c : caches)
    (f : pystr -> caches -> Eff Session (A * caches)) :
  (forall x c', stable (f x c')) -> stable (when_truthy v c f).
Proof.
  intros Hf. unfold when_truthy. destruct v as [[|ch rest]|]; repeat stable_step.
Qed.

Lemma get_group_cache (G : list models.Group.t) (code : pystr) (c c' : caches)
    (s s' : Session) (gid : Z) :
  groups_are G s -> cache_within G c ->
  _get_group code c s = (Ok (gid, c'), s') -> cache_within G c'.
Proof.
  intros HG Hc. unfold _get_group.
  destruct (group_cache c !! code) as [g0|] eqn:Hhit.
  - intros [= <- <- <-]. done.
  - unfold bind at 1.
    pose proof (stable_execute (fun t => models.Group.id <$>
      filter (fun g => models.Group.code g = code) (models.group t)) s) as [_ Hst].
    specialize (Hst G HG). revert Hst.
    unfold session.execute, bind, get_state, ret.
    destruct (session.flush s) as [[[]|e] s1] eqn:Hfl; [|done]. cbn [snd].
    intros [Hcur _]. rewrite Hcur. unfold lift.
    destruct (session.scalar_one_or_none _) as [[g1|]|] eqn:Hone; [|done|done].
    unfold ret. intros [= <- <- <-].
    intros code' gid' Hlk. cbn in Hlk.
    destruct (decide (code = code')) as [<-|Hne].
    + unfold session.scalar_one_or_none in Hone.
      destruct (filter _ G) as [|g [|g' l]] eqn:Hfilter; cbn in Hone; try done.
      exists g. apply (f_equal (fun l => g ∈ l)) in Hfilter.
      assert (g ∈ filter (fun g0 => models.Group.code g0 = code) G) as Hg
        by (rewrite Hfilter; by left).
      by apply list_elem_of_filter in Hg as [? ?].
    + rewrite lookup_insert_ne in Hlk by done. by apply (Hc code' gid').
Qed.

(** An unknown group code makes [_get_group] raise. *)
Lemma get_group_unknown (G : list models.Group.t) (code : pystr) (c : caches) (s : Session) :
  groups_are G s -> cache_within G c ->
  (forall g, g ∈ G -> models.Group.code g <> code) ->
  exists e, fst (_get_group code c s) = Raise e.
Proof.
  intros HG Hc Hun. unfold _get_group.
  destruct (group_cache c !! code) as [g0|] eqn:Hhit.
  - destruct (Hc code g0 Hhit) as (g & Hg & Hcode). by destruct (Hun g Hg).
  - unfold bind at 1.
    pose proof (stable_execute (fun t => models.Group.id <$>
      filter (fun g => models.Group.code g = code) (models.group t)) s) as [_ Hst].
    specialize (Hst G HG). revert Hst.
    unfold session.execute, bind, get_state, ret.
    destruct (session.flush s) as [[[]|e] s1] eqn:Hfl; [|by eauto]. cbn [snd].
    intros [Hcur _]. rewrite Hcur.
    assert (filter (fun g => models.Group.code g = code) G = []) as ->.
    { apply filter_none. intros g Hg. by apply Hun. }
    cbn. eauto.
Qed.

Lemma returns_bind {A B} (m : Eff Session A) (k : A -> Eff Session B) (Q : B -> Prop) :
  (forall a, returns (k a) Q) -> returns (bind m k) Q.
Proof.
  intros Hk s. unfold bind. destruct (m s) as [[a|e] s1]; [|done]. apply Hk.
Qed.

Lemma returns_ret {A} (a : A) (Q : A -> Prop) : Q a -> returns (ret a) Q.
Proof. by intros H s. Qed.

Lemma returns_raise {A} (e : exception) (Q : A -> Prop) : returns (raise e) Q.
Proof. by intros s. Qed.

Ltac returns_step :=
  first
    [ apply returns_ret; reflexivity
    | apply returns_raise
    | apply returns_bind; intros ?
    | match goal with
      | |- returns (match ?x with _ => _ end) _ => destruct x
      | |- returns (let '(_, _) := ?x in _) _ => destruct x
      end ].

(** The room and teacher lookups leave the group cache alone. *)
Lemma room_keeps_group_cache (name : pystr) (c : caches) :
  returns (_get_or_create_room name c) (fun p => group_cache (snd p) = group_cache c).
Proof. unfold _get_or_create_room. repeat returns_step. Qed.

Lemma teacher_keeps_group_cache (name : pystr) (c : caches) :
  returns (_get_or_create_teacher name c) (fun p => group_cache (snd p) = group_cache c).
Proof. unfold _get_or_create_teacher. repeat returns_step. Qed.

Lemma when_truthy_keeps_group_cache {A} (v : option pystr) (c : caches)
    (f : pystr -> caches -> Eff Session (A * caches)) :
  (forall x c', returns (f x c') (fun p => group_cache (snd p) = group_cache c')) ->
  returns (when_truthy v c f) (fun p => group_cache (snd p) = group_cache c).
Proof.
  intros Hf. unfold when_truthy.
  destruct v as [[|ch rest]|]; [by apply returns_ret| |by apply returns_ret].
  intros s. unfold bind. specialize (Hf (ch :: rest) c s).
  by destruct (f (ch :: rest) c s) as [[[x c']|e] s1].
Qed.

(** A batch with a lesson of an unknown group does not get through the
    loop of [bulk_insert_lessons]. *)
Lemma insert_lessons_unknown (G : list models.Group.t) (lessons : list Lesson)
    (source_id : Z) (rec : Lesson) (c : caches) (s : Session) :
  groups_are G s -> cache_within G c ->
  rec ∈ lessons ->
  (forall g, g ∈ G -> models.Group.code g <> group_code rec) ->
  exists e, fst (insert_lessons lessons source_id c s) = Raise e.
Proof.
  intros HG Hc Hin Hun. revert c s HG Hc.
  induction lessons as [|r rest IH]; intros c s HG Hc; [by inversion Hin|].
  cbn [insert_lessons]. unfold bind at 1.
  destruct (_get_group (group_code r) c s) as [[[gid c1]|e] s1] eqn:Hg; [|by eauto].
  apply elem_of_cons in Hin as [->|Hin].
  { destruct (get_group_unknown G (group_code r) c s HG Hc Hun) as [e He].
    rewrite Hg in He. done. }
  assert (groups_are G s1) as HG1.
  { pose proof (stable_get_group (group_code r) c s) as [_ H]. rewrite Hg in H.
    by apply (H G). }
  assert (cache_within G c1) as Hc1
    by apply (get_group_cache G (group_code r) c c1 s s1 gid HG Hc Hg).
  cbn [fst snd]. unfold bind at 1.
  pose proof (stable_when_truthy (room r) c1 _get_or_create_room
                stable_get_or_create_room s1) as [_ HG2].
  pose proof (when_truthy_keeps_group_cache (room r) c1 _get_or_create_room
                room_keeps_group_cache s1) as Hk2.
  destruct (when_truthy (room r) c1 _get_or_create_room s1) as [[[rid c2]|e] s2];
    [|by eauto].
  cbn [fst snd] in *. specialize (HG2 G HG1). unfold bind at 1.
  pose proof (stable_when_truthy (teacher r) c2 _get_or_create_teacher
                stable_get_or_create_teacher s2) as [_ HG3].
  pose proof (when_truthy_keeps_group_cache (teacher r) c2 _get_or_create_teacher
                teacher_keeps_group_cache s2) as Hk3.
  destruct (when_truthy (teacher r) c2 _get_or_create_teacher s2) as [[[tid c3]|e] s3];
    [|by eauto].
  cbn [fst snd] in *. specialize (HG3 G HG2). unfold bind at 1.
  match goal with
  | |- context [session.add ?ids ?ins s3] =>
      pose proof (stable_add ids ins (fun _ _ => eq_refl) s3) as [_ HG4];
      destruct (session.add ids ins s3) as [[lid|e] s4] eqn:Hadd
  end; [|by eauto].
  cbn [snd] in HG4. apply IH; [done|by apply HG4|].
  intros code gid' Hl. apply (Hc1 code gid'). congruence.
Qed.

Lemma stable_insert_lessons (lessons : list Lesson) (source_id : Z) (c : caches) :
  stable (insert_lessons lessons source_id c).
Proof.
  revert c. induction lessons as [|r rest IH]; intros c; cbn [insert_lessons].
  - apply stable_ret.
  - apply stable_bind; [apply stable_get_group|intros g].
    apply stable_bind;
      [apply stable_when_truthy, stable_get_or_create_room|intros rm].
    apply stable_bind;
      [apply stable_when_truthy, stable_get_or_create_teacher|intros t].
    apply stable_bind; [by apply stable_add|intros _]. apply IH.
Qed.

Lemma flush_usable (s : Session) : usable s -> session.flush s = (Ok tt, s).
Proof. intros [Hi Hc]. unfold session.flush. by rewrite Hi, Hc. Qed.

Lemma flush_Ok (s s' : Session) : session.flush s = (Ok tt, s') -> usable s /\ s' = s.
Proof.
  unfold session.flush, usable.
  destruct (inactive s); [done|]. destruct (models.constraints_ok (current s)); [|done].
  by intros [= <-].
Qed.

Lemma flush_inactive (s : Session) :
  inactive s = true -> session.flush s = (Raise PendingRollbackError, s).
Proof. intros Hi. unfold session.flush. by rewrite Hi. Qed.

Lemma execute_usable {A} (q : models.tables -> list A) (s : Session) :
  usable s -> session.execute q s = (Ok (q (current s)), s).
Proof. intros H. unfold session.execute, bind. by rewrite (flush_usable s H). Qed.

Lemma execute_Ok {A} (q : models.tables -> list A) (s s' : Session) (rows : list A) :
  session.execute q s = (Ok rows, s') -> usable s /\ s' = s /\ rows = q (current s).
Proof.
  unfold session.execute, bind.
  destruct (session.flush s) as [[[]|e] s1] eqn:Hf; [|done].
  apply flush_Ok in Hf as [Hu ->]. by intros [= <- <-].
Qed.

Lemma execute_inactive {A} (q : models.tables -> list A) (s : Session) :
  inactive s = true -> session.execute q s = (Raise PendingRollbackError, s).
Proof. intros H. unfold session.execute, bind. by rewrite (flush_inactive s H). Qed.

(** Rows with a unique key: the rows under one key are at most one. *)
Lemma filter_key_unique {A K} `{EqDecision K} (f : A -> K) (l : list A) (x : A) :
  NoDup (f <$> l) -> x ∈ l -> filter (fun y => f y = f x) l = [x].
Proof.
  induction l as [|a l IH]; intros Hnd Hin; [by inversion Hin|].
  cbn in Hnd. apply NoDup_cons in Hnd as [Ha Hnd].
  apply elem_of_cons in Hin as [->|Hin].
  - rewrite filter_cons_True by done. f_equal.
    apply filter_none. intros y Hy Heq. apply Ha. rewrite <- Heq.
    by apply list_elem_of_fmap_2.
  - rewrite filter_cons_False; [by apply IH|].
    intros Heq. apply Ha. rewrite Heq. by apply list_elem_of_fmap_2.
Qed.

Lemma filter_key_two {A} (P : A -> Prop) `{forall x, Decision (P x)} (l : list A) (x y : A) :
  x ∈ l -> y ∈ l -> x <> y -> P x -> P y ->
  exists a b r, filter P l = a :: b :: r.
Proof.
  intros Hx Hy Hne Px Py.
  assert (x ∈ filter P l) as Hfx by (by apply list_elem_of_filter).
  assert (y ∈ filter P l) as Hfy by (by apply list_elem_of_filter).
  destruct (filter P l) as [|a [|b r]]; [by inversion Hfx| |by eauto].
  apply list_elem_of_singleton in Hfx, Hfy. congruence.
Qed.

Lemma next_id_above (ids : list Z) (x : Z) : x ∈ ids -> x < models.next_id ids.
Proof.
  unfold models.next_id. induction ids as [|a ids IH]; intros Hin; [by inversion Hin|].
  cbn. apply elem_of_cons in Hin as [->|Hin]; [lia|]. specialize (IH Hin). lia.
Qed.

Lemma next_id_fresh (ids : list Z) : models.next_id ids ∉ ids.
Proof. intros H. apply next_id_above in H. lia. Qed.

Lemma next_id_positive (ids : list Z) : 0 < models.next_id ids.
Proof.
  unfold models.next_id. assert (0 <= foldr Z.max 0 ids); [|lia].
  induction ids; cbn; lia.
Qed.

Lemma NoDup_snoc_fmap {A K} (f : A -> K) (l : list A) (x : A) :
  NoDup (f <$> l) -> f x ∉ f <$> l -> NoDup (f <$> (l ++ [x])).
Proof.
  intros Hnd Hx. rewrite fmap_app. apply NoDup_app. split; [done|]. split.
  - intros k Hk Hk'. cbn in Hk'. apply list_elem_of_singleton in Hk' as ->. done.
  - cbn. apply NoDup_singleton.
Qed.

(** [constraints_ok], constraint by constraint *)
Lemma constraints_ok_spec (t : models.tables) :
  models.constraints_ok t = true <->
  NoDup (models.Group.id <$> models.group t)
  /\ NoDup ((fun g => (models.Group.faculty_id g, models.Group.code g)) <$> models.group t)
  /\ NoDup (models.Teacher.id <$> models.teacher t)
  /\ NoDup (models.Teacher.name <$> models.teacher t)
  /\ NoDup (models.Room.id <$> models.room t)
  /\ NoDup ((fun r => (models.Room.building r, models.Room.number r)) <$> models.room t)
  /\ NoDup (models.SourceFile.id <$> models.source_file t)
  /\ NoDup (models.SourceFile.url <$> models.source_file t)
  /\ NoDup (models.SourceFile.sha256 <$> models.source_file t)
  /\ NoDup (models.Lesson.id <$> models.lesson t).
Proof.
  unfold models.constraints_ok. rewrite !andb_true_iff, !bool_decide_eq_true. tauto.
Qed.

Lemma constraints_ok_with_source_file (t : models.tables) (rows : list models.SourceFile.t) :
  models.constraints_ok t = true ->
  models.constraints_ok (models.with_source_file t rows) = true <->
  NoDup (models.SourceFile.id <$> rows) /\ NoDup (models.SourceFile.url <$> rows)
  /\ NoDup (models.SourceFile.sha256 <$> rows).
Proof. intros H. apply constraints_ok_spec in H. rewrite constraints_ok_spec. cbn. tauto. Qed.

Lemma constraints_ok_with_room (t : models.tables) (rows : list models.Room.t) :
  models.constraints_ok t = true ->
  models.constraints_ok (models.with_room t rows) = true <->
  NoDup (models.Room.id <$> rows)
  /\ NoDup ((fun r => (models.Room.building r, models.Room.number r)) <$> rows).
Proof. intros H. apply constraints_ok_spec in H. rewrite constraints_ok_spec. cbn. tauto. Qed.

Lemma constraints_ok_with_teacher (t : models.tables) (rows : list models.Teacher.t) :
  models.constraints_ok t = true ->
  models.constraints_ok (models.with_teacher t rows) = true <->
  NoDup (models.Teacher.id <$> rows) /\ NoDup (models.Teacher.name <$> rows).
Proof. intros H. apply constraints_ok_spec in H. rewrite constraints_ok_spec. cbn. tauto. Qed.

Lemma constraints_ok_with_lesson (t : models.tables) (rows : list models.Lesson.t) :
  models.constraints_ok t = true ->
  models.constraints_ok (models.with_lesson t rows) = true <->
  NoDup (models.Lesson.id <$> rows).
Proof. intros H. apply constraints_ok_spec in H. rewrite constraints_ok_spec. cbn. tauto. Qed.

(** ** [upsert_source_file] *)

Lemma upsert_known (meta : SourceFileMeta) (s : Session) (sf : models.SourceFile.t) :
  usable s -> sf ∈ models.source_file (current s) ->
  models.SourceFile.sha256 sf = sha256 meta -> models.SourceFile.id sf <> 0 ->
  upsert_source_file meta s = (Ok (models.SourceFile.id sf), s).
Proof.
  intros Hu Hin Hsha Hid. unfold upsert_source_file, bind.
  rewrite (execute_usable _ s Hu). rewrite <- Hsha.
  rewrite (filter_key_unique models.SourceFile.sha256 _ sf); [|by apply constraints_ok_spec, Hu|done].
  cbn. apply Z.eqb_neq in Hid. by rewrite Hid.
Qed.

Lemma upsert_new (meta : SourceFileMeta) (s : Session) :
  usable s ->
  sha256 meta ∉ models.SourceFile.sha256 <$> models.source_file (current s) ->
  url meta ∉ models.SourceFile.url <$> models.source_file (current s) ->
  let s' := added s (models.with_source_file (current s)
                       (models.source_file (current s) ++ [new_source_file meta (current s)])) in
  upsert_source_file meta s = (Ok (models.SourceFile.id (new_source_file meta (current s))), s')
  /\ usable s'.
Proof.
  intros Hu Hsha Hurl s'.
  assert (usable s') as Hu'.
  { destruct Hu as [Hi Hc]. split; [done|]. cbn.
    apply constraints_ok_with_source_file; [done|]. apply constraints_ok_spec in Hc.
    destruct Hc as (_ & _ & _ & _ & _ & _ & H1 & H2 & H3 & _).
    split; [|split].
    - apply NoDup_snoc_fmap; [done|]. apply next_id_fresh.
    - by apply NoDup_snoc_fmap.
    - by apply NoDup_snoc_fmap. }
  split; [|done]. unfold upsert_source_file, bind.
  rewrite (execute_usable _ s Hu).
  rewrite filter_none; [|intros y Hy Heq; apply Hsha; rewrite <- Heq; by apply list_elem_of_fmap_2].
  cbn.
  match goal with |- context [session.flush ?x] => change x with s' end.
  by rewrite (flush_usable s' Hu').
Qed.

(** A file that is new by its content but comes under a URL that is
    already stored violates the uniqueness of the URL: the flush fails,
    the transaction is rolled back and the session stays inactive. *)
Lemma upsert_url_conflict (meta : SourceFileMeta) (s : Session) :
  usable s ->
  sha256 meta ∉ models.SourceFile.sha256 <$> models.source_file (current s) ->
  url meta ∈ models.SourceFile.url <$> models.source_file (current s) ->
  upsert_source_file meta s
  = (Raise IntegrityError,
     {| committed := committed s; current := committed s; inactive := true |}).
Proof.
  intros Hu Hsha Hurl. unfold upsert_source_file, bind.
  rewrite (execute_usable _ s Hu).
  rewrite filter_none; [|intros y Hy Heq; apply Hsha; rewrite <- Heq; by apply list_elem_of_fmap_2].
  cbn. unfold session.flush. cbn. destruct Hu as [-> Hc].
  destruct (models.constraints_ok (models.with_source_file _ _)) eqn:Hc'; [|done].
  apply constraints_ok_with_source_file in Hc' as (_ & Hnd & _); [|done].
  rewrite fmap_app in Hnd. apply NoDup_app in Hnd as (_ & Hdisj & _).
  exfalso. apply (Hdisj _ Hurl). cbn. by left.
Qed.

(** [upsert_source_file] is idempotent. *)
Theorem upsert_source_file_idempotent (meta : SourceFileMeta) (s s' : Session) (id : Z) :
  upsert_source_file meta s = (Ok id, s') ->
  upsert_source_file meta s' = (Ok id, s').
Proof.
  intros H. pose proof H as H0. revert H. unfold upsert_source_file at 1. unfold bind at 1.
  destruct (session.execute _ s) as [[rows|e] s1] eqn:Hex; [|done].
  apply execute_Ok in Hex as (Hu & -> & ->).
  unfold bind at 1, lift.
  destruct (filter (fun sf => models.SourceFile.sha256 sf = sha256 meta)
              (models.source_file (current s))) as [|x [|y l]] eqn:Hfilter; cbn; [| |done].
  - unfold bind. cbn. intros H.
    destruct (session.flush _) as [[[]|e] s2] eqn:Hf; [|done].
    apply flush_Ok in Hf as [Hu2 ->]. injection H as <- <-.
    apply (upsert_known meta _ (new_source_file meta (current s))); [done| |done|].
    + cbn. apply elem_of_app. right. by left.
    + cbn. pose proof (next_id_positive (models.SourceFile.id <$> models.source_file (current s))).
      lia.
  - destruct (models.SourceFile.id x =? 0) eqn:Hid; cbn.
    + unfold bind. cbn. intros H.
      destruct (session.flush _) as [[[]|e] s2] eqn:Hf; [|done].
      apply flush_Ok in Hf as [[_ Hc2] ->]. cbn in Hc2.
      apply constraints_ok_with_source_file in Hc2 as (_ & _ & Hnd); [|apply Hu].
      rewrite fmap_app in Hnd. apply NoDup_app in Hnd as (_ & Hdisj & _).
      assert (x ∈ filter (fun sf => models.SourceFile.sha256 sf = sha256 meta)
                (models.source_file (current s))) as Hx by (rewrite Hfilter; by left).
      apply list_elem_of_filter in Hx as [Hsha Hx].
      exfalso. apply (Hdisj (sha256 meta)); [|cbn; by left].
      rewrite <- Hsha. by apply list_elem_of_fmap_2.
    + intros [= <- <-]. done.
Qed.

(** ** The dimension lookups *)

Lemma room_found (name : pystr) (c : caches) (s : Session) (r : models.Room.t) :
  usable s -> room_cache c !! name = None ->
  r ∈ models.room (current s) ->
  (models.Room.building r, models.Room.number r) = room_key name ->
  _get_or_create_room name c s
  = (Ok (models.Room.id r, with_room_cache c name (models.Room.id r)), s).
Proof.
  intros Hu Hmiss Hin Hkey. unfold _get_or_create_room. rewrite Hmiss.
  destruct (room_key name) as [b n]. unfold bind at 1.
  rewrite (execute_usable _ s Hu).
  rewrite (list_filter_iff _ (fun x => (fun y => (models.Room.building y, models.Room.number y)) x
                                       = (fun y => (models.Room.building y, models.Room.number y)) r));
    [|intros x; rewrite Hkey; split; [by intros [-> ->]|by intros [= -> ->]]].
  rewrite (filter_key_unique (fun y => (models.Room.building y, models.Room.number y)) _ r);
    [done|by apply constraints_ok_spec, Hu|done].
Qed.

Lemma room_created (name : pystr) (c : caches) (s : Session) :
  usable s -> room_cache c !! name = None ->
  room_key name ∉ (fun r => (models.Room.building r, models.Room.number r))
                    <$> models.room (current s) ->
  let rid := models.next_id (models.Room.id <$> models.room (current s)) in
  let s' := added s (models.with_room (current s)
                       (models.room (current s)
                          ++ [models.Room.mk rid (room_key name).1 (room_key name).2])) in
  _get_or_create_room name c s = (Ok (rid, with_room_cache c name rid), s') /\ usable s'.
Proof.
  intros Hu Hmiss Hnew rid s'.
  assert (usable s') as Hu'.
  { destruct Hu as [Hi Hc]. split; [done|]. cbn.
    apply constraints_ok_with_room; [done|]. apply constraints_ok_spec in Hc.
    destruct Hc as (_ & _ & _ & _ & H1 & H2 & _).
    split.
    - apply NoDup_snoc_fmap; [done|]. apply next_id_fresh.
    - apply NoDup_snoc_fmap; [done|]. cbn. by destruct (room_key name). }
  split; [|done]. unfold _get_or_create_room. rewrite Hmiss.
  subst s' rid. destruct (room_key name) as [b n] eqn:Hk. unfold bind at 1.
  rewrite (execute_usable _ s Hu).
  rewrite filter_none;
    [|intros y Hy [Hb Hn]; apply Hnew; rewrite <- Hb, <- Hn;
      by apply (list_elem_of_fmap_2 (fun r => (models.Room.building r, models.Room.number r)))].
  cbn in *. unfold bind, session.add.
  match goal with |- context [session.flush ?x] => rewrite (flush_usable x Hu') end.
  done.
Qed.

Lemma teacher_found (name : pystr) (c : caches) (s : Session) (t : models.Teacher.t) :
  usable s -> teacher_cache c !! name = None ->
  t ∈ models.teacher (current s) -> models.Teacher.name t = name ->
  _get_or_create_teacher name c s
  = (Ok (models.Teacher.id t, with_teacher_cache c name (models.Teacher.id t)), s).
Proof.
  intros Hu Hmiss Hin Hname. unfold _get_or_create_teacher. rewrite Hmiss.
  unfold bind at 1. rewrite (execute_usable _ s Hu). rewrite <- Hname.
  rewrite (filter_key_unique models.Teacher.name _ t);
    [done|by apply constraints_ok_spec, Hu|done].
Qed.

Lemma teacher_created (name : pystr) (c : caches) (s : Session) :
  usable s -> teacher_cache c !! name = None ->
  name ∉ models.Teacher.name <$> models.teacher (current s) ->
  let tid := models.next_id (models.Teacher.id <$> models.teacher (current s)) in
  let s' := added s (models.with_teacher (current s)
                       (models.teacher (current s) ++ [models.Teacher.mk tid name])) in
  _get_or_create_teacher name c s = (Ok (tid, with_teacher_cache c name tid), s') /\ usable s'.
Proof.
  intros Hu Hmiss Hnew tid s'.
  assert (usable s') as Hu'.
  { destruct Hu as [Hi Hc]. split; [done|]. cbn.
    apply constraints_ok_with_teacher; [done|]. apply constraints_ok_spec in Hc.
    destruct Hc as (_ & _ & H1 & H2 & _).
    split.
    - apply NoDup_snoc_fmap; [done|]. apply next_id_fresh.
    - by apply NoDup_snoc_fmap. }
  split; [|done]. unfold _get_or_create_teacher. rewrite Hmiss.
  subst s' tid. unfold bind at 1.
  rewrite (execute_usable _ s Hu).
  rewrite filter_none;
    [|intros y Hy Hn; apply Hnew; rewrite <- Hn; by apply list_elem_of_fmap_2].
  cbn in *. unfold bind, session.add.
  match goal with |- context [session.flush ?x] => rewrite (flush_usable x Hu') end.
  done.
Qed.

(** After [_get_or_create_teacher] there is exactly one teacher of the
    name, and it is the one returned. *)
Theorem get_or_create_teacher_one_row (name : pystr) (c : caches) (s : Session) :
  usable s -> teacher_cache c !! name = None ->
  exists tid s',
    _get_or_create_teacher name c s = (Ok (tid, with_teacher_cache c name tid), s')
    /\ usable s'
    /\ committed s' = committed s
    /\ filter (fun t => models.Teacher.name t = name) (models.teacher (current s'))
       = [models.Teacher.mk tid name]
    /\ (models.teacher (current s') = models.teacher (current s)
        \/ models.teacher (current s')
           = models.teacher (current s) ++ [models.Teacher.mk tid name]).
Proof.
  intros Hu Hmiss.
  destruct (decide (name ∈ models.Teacher.name <$> models.teacher (current s))) as [Hin|Hnew].
  - apply list_elem_of_fmap in Hin as (t & Hname & Hin). symmetry in Hname.
    exists (models.Teacher.id t), s.
    split; [by apply teacher_found|]. split; [done|]. split; [done|]. split; [|by left].
    rewrite <- Hname.
    rewrite (filter_key_unique models.Teacher.name _ t);
      [by destruct t|by apply constraints_ok_spec, Hu|done].
  - destruct (teacher_created name c s Hu Hmiss Hnew) as [Hrun Hu'].
    eexists _, _. split; [exact Hrun|]. split; [done|]. split; [done|]. split; [|by right].
    cbn. rewrite filter_app.
    rewrite filter_none;
      [|intros y Hy Hk; apply Hnew; rewrite <- Hk; by apply list_elem_of_fmap_2].
    by rewrite filter_cons_True.
Qed.

(** ** [_get_group] *)

Lemma get_group_found (code : pystr) (c : caches) (s : Session) (g : models.Group.t) :
  usable s -> group_cache c !! code = None ->
  NoDup (models.Group.code <$> models.group (current s)) ->
  g ∈ models.group (current s) -> models.Group.code g = code ->
  _get_group code c s = (Ok (models.Group.id g, with_group_cache c code (models.Group.id g)), s).
Proof.
  intros Hu Hmiss Hnd Hin Hcode. unfold _get_group. rewrite Hmiss. unfold bind at 1.
  rewrite (execute_usable _ s Hu). rewrite <- Hcode.
  by rewrite (filter_key_unique models.Group.code _ g).
Qed.

(** A group code that two faculties use cannot be resolved: the lookup is
    by code alone, while the table is unique by faculty and code. *)
Theorem get_group_ambiguous (code : pystr) (c : caches) (s : Session) (g1 g2 : models.Group.t) :
  usable s -> group_cache c !! code = None ->
  g1 ∈ models.group (current s) -> g2 ∈ models.group (current s) -> g1 <> g2 ->
  models.Group.code g1 = code -> models.Group.code g2 = code ->
  _get_group code c s = (Raise MultipleResultsFound, s).
Proof.
  intros Hu Hmiss H1 H2 Hne Hc1 Hc2. unfold _get_group. rewrite Hmiss. unfold bind at 1.
  rewrite (execute_usable _ s Hu).
  destruct (filter_key_two (fun g => models.Group.code g = code) _ g1 g2 H1 H2 Hne Hc1 Hc2)
    as (a & b & r & ->).
  done.
Qed.

(** ** [bulk_insert_lessons] *)

Lemma get_group_ok (code : pystr) (c : caches) (s : Session) :
  usable s ->
  NoDup (models.Group.code <$> models.group (current s)) ->
  code ∈ models.Group.code <$> models.group (current s) ->
  exists gid c', _get_group code c s = (Ok (gid, c'), s).
Proof.
  intros Hu Hnd Hin.
  destruct (group_cache c !! code) as [gid|] eqn:Hhit.
  - exists gid, c. unfold _get_group. by rewrite Hhit.
  - apply list_elem_of_fmap in Hin as (g & Hcode & Hin). symmetry in Hcode.
    eexists _, _. by apply get_group_found.
Qed.

Lemma room_step (v : option pystr) (c : caches) (s : Session) :
  usable s ->
  exists r c' s', when_truthy v c _get_or_create_room s = (Ok (r, c'), s') /\ resolved s s'.
Proof.
  intros Hu. unfold when_truthy.
  destruct v as [[|ch name]|]; [by exists None, c, s| |by exists None, c, s].
  set (nm := ch :: name).
  destruct (room_cache c !! nm) as [rid|] eqn:Hhit.
  - exists (Some rid), c, s. split; [|done].
    unfold bind, _get_or_create_room. by rewrite Hhit.
  - destruct (decide (room_key nm ∈ (fun r => (models.Room.building r, models.Room.number r))
                                     <$> models.room (current s))) as [Hin|Hnew].
    + apply list_elem_of_fmap in Hin as (r & Hkey & Hin). symmetry in Hkey.
      eexists _, _, s. split; [|done].
      unfold bind. by rewrite (room_found nm c s r Hu Hhit Hin Hkey).
    + destruct (room_created nm c s Hu Hhit Hnew) as [Hrun Hu'].
      eexists _, _, _. split; [unfold bind; by rewrite Hrun|]. done.
Qed.

Lemma teacher_step (v : option pystr) (c : caches) (s : Session) :
  usable s ->
  exists r c' s', when_truthy v c _get_or_create_teacher s = (Ok (r, c'), s') /\ resolved s s'.
Proof.
  intros Hu. unfold when_truthy.
  destruct v as [[|ch name]|]; [by exists None, c, s| |by exists None, c, s].
  set (nm := ch :: name).
  destruct (teacher_cache c !! nm) as [tid|] eqn:Hhit.
  - exists (Some tid), c, s. split; [|done].
    unfold bind, _get_or_create_teacher. by rewrite Hhit.
  - destruct (decide (nm ∈ models.Teacher.name <$> models.teacher (current s))) as [Hin|Hnew].
    + apply list_elem_of_fmap in Hin as (t & Hname & Hin). symmetry in Hname.
      eexists _, _, s. split; [|done].
      unfold bind. by rewrite (teacher_found nm c s t Hu Hhit Hin Hname).
    + destruct (teacher_created nm c s Hu Hhit Hnew) as [Hrun Hu'].
      eexists _, _, _. split; [unfold bind; by rewrite Hrun|]. done.
Qed.

Lemma insert_lessons_all (lessons : list Lesson) (source_id : Z) (c : caches) (s : Session) :
  usable s ->
  NoDup (models.Group.code <$> models.group (current s)) ->
  (forall rec, rec ∈ lessons ->
     group_code rec ∈ models.Group.code <$> models.group (current s)) ->
  exists s',
    insert_lessons lessons source_id c s = (Ok tt, s')
    /\ usable s' /\ committed s' = committed s
    /\ exists new_rows,
         models.lesson (current s') = models.lesson (current s) ++ new_rows
         /\ (fun r => (models.Lesson.date r, models.Lesson.start_time r, models.Lesson.end_time r,
                       models.Lesson.subject r)) <$> new_rows
            = (fun l => (date l, start_time l, end_time l, subject l)) <$> lessons.
Proof.
  revert c s. induction lessons as [|rec rest IH]; intros c s Hu Hnd Hcodes.
  - exists s. split; [done|]. split; [done|]. split; [done|]. exists []. by rewrite app_nil_r.
  - cbn [insert_lessons]. unfold bind at 1.
    destruct (get_group_ok (group_code rec) c s Hu Hnd) as (gid & c1 & ->);
      [apply Hcodes; by left|]. cbn [fst snd]. unfold bind at 1.
    destruct (room_step (room rec) c1 s Hu) as (rid & c2 & s2 & -> & Hu2 & Hc2 & Hl2 & Hg2).
    cbn [fst snd]. unfold bind at 1.
    destruct (teacher_step (teacher rec) c2 s2 Hu2)
      as (tid & c3 & s3 & -> & Hu3 & Hc3 & Hl3 & Hg3).
    cbn [fst snd]. unfold bind at 1. unfold session.add at 1.
    match goal with
    | |- context [insert_lessons rest source_id c3 ?x] => set (s4 := x)
    end.
    assert (usable s4) as Hu4.
    { destruct Hu3 as [Hi Hc]. split; [done|]. cbn.
      apply constraints_ok_with_lesson; [done|]. apply constraints_ok_spec in Hc.
      apply NoDup_snoc_fmap; [tauto|]. apply next_id_fresh. }
    destruct (IH c3 s4 Hu4) as (s' & Hrun & Hu' & Hc' & new_rows & Hrows & Hfields).
    { cbn. by rewrite Hg3, Hg2. }
    { intros r Hr. cbn. rewrite Hg3, Hg2. apply Hcodes. by right. }
    exists s'. split; [done|]. split; [done|].
    split; [rewrite Hc'; cbn; congruence|].
    eexists (_ :: new_rows). split.
    + rewrite Hrows. cbn. rewrite Hl3, Hl2. by rewrite <- app_assoc.
    + cbn. by rewrite Hfields.
Qed.

(** The loader stores every lesson it is given, one row for each, also
    when the batch holds the same lesson more than once. *)
Theorem bulk_insert_lessons_stores_each (lessons : list Lesson) (source_id : Z) (s : Session) :
  usable s ->
  NoDup (models.Group.code <$> models.group (current s)) ->
  (forall rec, rec ∈ lessons ->
     group_code rec ∈ models.Group.code <$> models.group (current s)) ->
  exists s',
    bulk_insert_lessons lessons source_id s = (Ok tt, s')
    /\ committed s' = current s' /\ inactive s' = false
    /\ exists new_rows,
         models.lesson (committed s') = models.lesson (current s) ++ new_rows
         /\ (fun r => (models.Lesson.date r, models.Lesson.start_time r, models.Lesson.end_time r,
                       models.Lesson.subject r)) <$> new_rows
            = (fun l => (date l, start_time l, end_time l, subject l)) <$> lessons.
Proof.
  intros Hu Hnd Hcodes. unfold bulk_insert_lessons, bind.
  destruct (insert_lessons_all lessons source_id
              {| group_cache := ∅; room_cache := ∅; teacher_cache := ∅ |} s Hu Hnd Hcodes)
    as (s' & -> & Hu' & Hc' & new_rows & Hrows & Hfields).
  unfold session.commit, bind. rewrite (flush_usable s' Hu'). cbn.
  eexists. split; [done|]. split; [done|]. split; [done|]. by exists new_rows.
Qed.

(** ** A batch with an unknown group *)

Lemma get_group_missing (code : pystr) (c : caches) (s : Session) :
  usable s -> cache_within (models.group (current s)) c ->
  code ∉ group_codes (current s) ->
  _get_group code c s = (Raise (unknown_group code), s).
Proof.
  intros Hu Hc Hun. unfold _get_group.
  destruct (group_cache c !! code) as [gid|] eqn:Hhit.
  - destruct (Hc code gid Hhit) as (g & Hg & Hcode). exfalso. apply Hun.
    rewrite <- Hcode. by apply list_elem_of_fmap_2.
  - unfold bind at 1. rewrite (execute_usable _ s Hu).
    rewrite filter_none;
      [done|intros g Hg Hcode; apply Hun; rewrite <- Hcode; by apply list_elem_of_fmap_2].
Qed.

Lemma get_group_known (code : pystr) (c : caches) (s : Session) :
  usable s -> cache_within (models.group (current s)) c ->
  NoDup (group_codes (current s)) -> code ∈ group_codes (current s) ->
  exists gid c', _get_group code c s = (Ok (gid, c'), s)
                 /\ cache_within (models.group (current s)) c'.
Proof.
  intros Hu Hc Hnd Hin.
  destruct (group_cache c !! code) as [gid|] eqn:Hhit.
  - exists gid, c. unfold _get_group. by rewrite Hhit.
  - apply list_elem_of_fmap in Hin as (g & Hcode & Hin). symmetry in Hcode.
    eexists _, _. split; [by apply get_group_found|].
    intros code' gid'. cbn. intros Hl.
    destruct (decide (code = code')) as [<-|Hne]; [by exists g|].
    rewrite lookup_insert_ne in Hl by done. by apply (Hc code' gid').
Qed.

Lemma room_step_cache (v : option pystr) (c c' : caches) (s s' : Session) (r : option Z) :
  when_truthy v c _get_or_create_room s = (Ok (r, c'), s') -> group_cache c' = group_cache c.
Proof.
  intros H.
  pose proof (when_truthy_keeps_group_cache v c _get_or_create_room room_keeps_group_cache s)
    as Hk.
  by rewrite H in Hk.
Qed.

Lemma teacher_step_cache (v : option pystr) (c c' : caches) (s s' : Session) (r : option Z) :
  when_truthy v c _get_or_create_teacher s = (Ok (r, c'), s') -> group_cache c' = group_cache c.
Proof.
  intros H.
  pose proof (when_truthy_keeps_group_cache v c _get_or_create_teacher
                teacher_keeps_group_cache s) as Hk.
  by rewrite H in Hk.
Qed.

(** The loop of the loader stops at the first lesson whose group is not
    in the store, with the error that names its code. *)
Lemma insert_lessons_first_unknown (before after : list Lesson) (rec : Lesson) (source_id : Z) :
  forall (c : caches) (s : Session),
    usable s -> cache_within (models.group (current s)) c ->
    NoDup (group_codes (current s)) ->
    Forall (fun l => group_code l ∈ group_codes (current s)) before ->
    group_code rec ∉ group_codes (current s) ->
    exists s', insert_lessons (before ++ rec :: after) source_id c s
               = (Raise (unknown_group (group_code rec)), s').
Proof.
  induction before as [|l before IH]; intros c s Hu Hc Hnd Hknown Hun.
  - cbn [Datatypes.app insert_lessons]. unfold bind at 1.
    rewrite (get_group_missing _ c s Hu Hc Hun). by eexists.
  - apply Forall_cons in Hknown as [Hl Hknown].
    cbn [Datatypes.app insert_lessons]. unfold bind at 1.
    destruct (get_group_known (group_code l) c s Hu Hc Hnd Hl) as (gid & c1 & -> & Hc1).
    cbn [fst snd]. unfold bind at 1.
    destruct (room_step (room l) c1 s Hu) as (rid & c2 & s2 & Hr & Hu2 & _ & _ & Hg2).
    rewrite Hr. apply room_step_cache in Hr.
    cbn [fst snd]. unfold bind at 1.
    destruct (teacher_step (teacher l) c2 s2 Hu2) as (tid & c3 & s3 & Ht & Hu3 & _ & _ & Hg3).
    rewrite Ht. apply teacher_step_cache in Ht.
    cbn [fst snd]. unfold bind at 1. unfold session.add at 1.
    match goal with
    | |- context [insert_lessons _ source_id c3 ?x] => set (s4 := x)
    end.
    assert (models.group (current s4) = models.group (current s)) as Hg4
      by (cbn; by rewrite Hg3, Hg2).
    apply IH.
    + destruct Hu3 as [Hi Hok]. split; [done|]. cbn.
      apply constraints_ok_with_lesson; [done|]. apply constraints_ok_spec in Hok.
      apply NoDup_snoc_fmap; [tauto|]. apply next_id_fresh.
    + rewrite Hg4. intros code gid' Hlk. apply (Hc1 code gid'). by rewrite <- Hr, <- Ht.
    + unfold group_codes. by rewrite Hg4.
    + unfold group_codes. by rewrite Hg4.
    + unfold group_codes. by rewrite Hg4.
Qed.

(** The first lesson of a batch whose group is not among the codes. *)
Lemma first_unknown (codes : list pystr) (lessons : list Lesson) (rec : Lesson) :
  rec ∈ lessons -> group_code rec ∉ codes ->
  exists before first after,
    lessons = before ++ first :: after
    /\ Forall (fun l => group_code l ∈ codes) before
    /\ group_code first ∉ codes.
Proof.
  induction lessons as [|l lessons IH]; intros Hin Hun; [by inversion Hin|].
  destruct (decide (group_code l ∈ codes)) as [Hl|Hl].
  - apply elem_of_cons in Hin as [->|Hin]; [done|].
    destruct (IH Hin Hun) as (before & first & after & -> & Hb & Hf).
    exists (l :: before), first, after. split; [done|]. split; [by constructor|done].
  - exists [], l, lessons. split; [done|]. split; [by constructor|done].
Qed.

(** What [upsert_source_file] can do on a usable session: it returns and
    leaves the session usable, or its flush fails. *)
Lemma upsert_outcome (meta : SourceFileMeta) (s s' : Session) (r : result Z) :
  usable s ->
  upsert_source_file meta s = (r, s') ->
  match r with
  | Ok _ => usable s' /\ models.group (current s') = models.group (current s)
  | Raise e => e = IntegrityError
  end.
Proof.
  intros Hu. unfold upsert_source_file, bind at 1. rewrite (execute_usable _ s Hu).
  unfold bind at 1, lift.
  assert (NoDup (models.SourceFile.sha256 <$> models.source_file (current s))) as Hnd
    by (apply constraints_ok_spec, Hu).
  assert (forall s2 : Session,
            inactive s2 = false -> models.group (current s2) = models.group (current s) ->
            (sf_id <- session.add
                        (fun t => models.SourceFile.id <$> models.source_file t)
                        (fun id t =>
                           models.with_source_file t
                             (models.source_file t ++
                                [models.SourceFile.mk id (url meta) (sha256 meta) (semester meta)])) ;;
             session.flush ;;; ret sf_id) s2 = (r, s') ->
            match r with
            | Ok _ => usable s' /\ models.group (current s') = models.group (current s)
            | Raise e => e = IntegrityError
            end) as Hinsert.
  { intros s2 Hi Hg. unfold bind, session.add.
    match goal with
    | |- context [session.flush ?x] => destruct (session.flush x) as [[[]|e] s3] eqn:Hf
    end.
    - apply flush_Ok in Hf as [Hu3 ->]. intros [= <- <-]. split; [done|]. cbn. done.
    - revert Hf. unfold session.flush. cbn [inactive current]. rewrite Hi.
      destruct (models.constraints_ok _); [done|]. intros [= <- _] [= <- _]. done. }
  destruct (filter (fun sf => models.SourceFile.sha256 sf = sha256 meta)
              (models.source_file (current s))) as [|x [|y l]] eqn:Hfilter.
  - cbn [fmap list_fmap session.scalar_one_or_none]. apply Hinsert; [apply Hu|done].
  - cbn [fmap list_fmap session.scalar_one_or_none].
    destruct (negb (models.SourceFile.id x =? 0)); [|apply Hinsert; [apply Hu|done]].
    by intros [= <- <-].
  - exfalso.
    assert (x ∈ filter (fun sf => models.SourceFile.sha256 sf = sha256 meta)
              (models.source_file (current s))) as Hx by (rewrite Hfilter; by left).
    assert (y ∈ filter (fun sf => models.SourceFile.sha256 sf = sha256 meta)
              (models.source_file (current s))) as Hy
      by (rewrite Hfilter; right; by left).
    apply list_elem_of_filter in Hx as [Hsx Hx]. apply list_elem_of_filter in Hy as [Hsy Hy].
    rewrite (list_filter_iff _ (fun sf => models.SourceFile.sha256 sf = models.SourceFile.sha256 x))
      in Hfilter; [|intros z; by rewrite Hsx].
    rewrite (filter_key_unique models.SourceFile.sha256 _ x Hnd Hx) in Hfilter. done.
Qed.

(** The id that [upsert_source_file] returns is never 0. *)
Lemma upsert_id_not_zero (meta : SourceFileMeta) (s s' : Session) (id : Z) :
  upsert_source_file meta s = (Ok id, s') -> id <> 0.
Proof.
  unfold upsert_source_file, bind at 1.
  destruct (session.execute _ s) as [[rows|e] s1]; [|done].
  unfold bind at 1, lift.
  destruct (session.scalar_one_or_none rows) as [existing|]; [|done].
  assert (forall s2 : Session,
            (sf_id <- session.add
                        (fun t => models.SourceFile.id <$> models.source_file t)
                        (fun id t =>
                           models.with_source_file t
                             (models.source_file t ++
                                [models.SourceFile.mk id (url meta) (sha256 meta) (semester meta)])) ;;
             session.flush ;;; ret sf_id) s2 = (Ok id, s') -> id <> 0) as Hinsert.
  { intros s2. unfold bind, session.add.
    match goal with |- context [session.flush ?x] => destruct (session.flush x) as [[[]|e] s3] end;
      [|done].
    intros [= <- _].
    pose proof (next_id_positive (models.SourceFile.id <$> models.source_file (current s2))).
    lia. }
  destruct existing as [x|]; [|apply Hinsert].
  destruct (x =? 0) eqn:Hx; cbn [negb]; [apply Hinsert|].
  intros [= <- _]. by apply Z.eqb_neq.
Qed.

(** Inside [get_session], a body that raises without having committed
    leaves the database as it was. *)
Lemma get_session_raise {A} (body : Eff Session A) (database : models.tables) (e : exception) :
  fst (body (session.open database)) = Raise e ->
  committed (snd (body (session.open database))) = database ->
  bot.get_session body database = (Raise e, database).
Proof.
  intros Hraise Hc. unfold bot.get_session, try_except, bind.
  destruct (body (session.open database)) as [[a|e'] s1]; cbn in Hraise; [done|].
  injection Hraise as ->. cbn in *. by rewrite Hc.
Qed.

(** The import of the administrator's upload is all or nothing: with a
    lesson of an unknown group in the batch, [_import_lessons] raises and
    the database is as before. *)
Lemma import_lessons_atomic (database : models.tables) (lessons : list Lesson)
    (source : SourceFileMeta) (rec : Lesson) :
  rec ∈ lessons ->
  (forall g, g ∈ models.group database -> models.Group.code g <> group_code rec) ->
  exists e, admin._import_lessons lessons source database = (Raise e, database).
Proof.
  intros Hin Hun. unfold admin._import_lessons. unfold bind at 1.
  set (body := bind (upsert_source_file source) _).
  assert (exists e, fst (body (session.open database)) = Raise e
                    /\ committed (snd (body (session.open database))) = database)
    as (e & He & Hc).
  { subst body. unfold bind.
    pose proof (stable_upsert_source_file source (session.open database)) as [Hc1 HG1].
    specialize (HG1 (models.group database) (conj eq_refl eq_refl)).
    destruct (upsert_source_file source (session.open database)) as [[id|e] s1];
      [|by eauto].
    cbn [snd] in *. unfold bulk_insert_lessons, bind.
    pose proof (stable_insert_lessons lessons id
                  {| group_cache := ∅; room_cache := ∅; teacher_cache := ∅ |} s1)
      as [Hc2 _].
    destruct (insert_lessons_unknown (models.group database) lessons id rec
                {| group_cache := ∅; room_cache := ∅; teacher_cache := ∅ |} s1)
      as [e He]; [done| |done|done|].
    { intros code gid Hl. cbn in Hl. by rewrite lookup_empty in Hl. }
    destruct (insert_lessons lessons id _ s1) as [[[]|e'] s2]; cbn in He; [done|].
    exists e'. cbn in *. split; [done|congruence]. }
  rewrite (get_session_raise body database e He Hc). eauto.
Qed.

Lemma bulk_insert_lessons_atomic (database : models.tables) (lessons : list Lesson)
    (source_id : Z) (rec : Lesson) :
  rec ∈ lessons ->
  (forall g, g ∈ models.group database -> models.Group.code g <> group_code rec) ->
  exists e, bot.get_session (bulk_insert_lessons lessons source_id) database
            = (Raise e, database).
Proof.
  intros Hin Hun.
  assert (exists e, fst (bulk_insert_lessons lessons source_id (session.open database)) = Raise e
                    /\ committed (snd (bulk_insert_lessons lessons source_id
                                         (session.open database))) = database)
    as (e & He & Hc).
  { unfold bulk_insert_lessons, bind.
    pose proof (stable_insert_lessons lessons source_id
                  {| group_cache := ∅; room_cache := ∅; teacher_cache := ∅ |}
                  (session.open database)) as [Hc2 _].
    destruct (insert_lessons_unknown (models.group database) lessons source_id rec
                {| group_cache := ∅; room_cache := ∅; teacher_cache := ∅ |}
                (session.open database))
      as [e He]; [done| |done|done|].
    { intros code gid Hl. cbn in Hl. by rewrite lookup_empty in Hl. }
    destruct (insert_lessons lessons source_id _ (session.open database)) as [[[]|e'] s2];
      cbn in He; [done|].
    exists e'. cbn in *. done. }
  rewrite (get_session_raise _ database e He Hc). eauto.
Qed.

End loader.

(* ===================================================================== *)
(** * The claims *)
(* ===================================================================== *)

Section claims.

Import fetcher_parser examples.

(** C1. Content that is already known by its sha256 is to be a no-op on
    the store when it is imported again.  [upsert_source_file] does its
    part: it returns the existing id and adds no SourceFile row.  But the
    id it returns is never 0, so the test [if not sf_id] by which [sync]
    means to skip known content cannot hold, and the importer that does
    reach the loader, [_import_lessons], loads again: the same workbook
    uploaded under two names leaves one SourceFile row and its lesson
    twice.  ([sync] itself cannot show this: its [list_files] raises on
    every spreadsheet link.) *)
Theorem second_import_stores_the_lessons_again :
  parse_excel sheet_one_lesson = Ok [maths]
  /\ (forall meta s s' id, upsert_source_file meta s = (Ok id, s') -> id <> 0)
  /\ (let '(r1, db1) := admin._import_lessons [maths] (uploaded "a.xlsx") seeded in
      let '(r2, db2) := admin._import_lessons [maths] (uploaded "b.xlsx") db1 in
      r1 = Ok 1 /\ r2 = Ok 1
      /\ upsert_source_file (uploaded "b.xlsx") (session.open db1) = (Ok 1, session.open db1)
      /\ models.SourceFile.id <$> models.source_file db1 = [1]
      /\ models.SourceFile.id <$> models.source_file db2 = [1]
      /\ models.Lesson.subject <$> models.lesson db1 = [py "Математика"]
      /\ models.Lesson.subject <$> models.lesson db2 = [py "Математика"; py "Математика"]).
Proof.
  split; [vm_compute; reflexivity|].
  split; [intros meta s s' id; apply upsert_id_not_zero|].
  vm_compute. repeat split; reflexivity.
Qed.

(** C2. The data rows are to be read from the row after the header row
    that the scan found.  The code departs from this: in [sheet_titled]
    the first row with a group code is row 3, [header_row_idx] is
    nevertheless 1, and the rows are read from row 2 on, so the lesson of
    row 3 is parsed too; reading from the row after row 3 would give the
    lesson of row 4 alone. *)
Theorem parse_excel_reads_from_row_two :
  header_position sheet_titled = Some 3%nat
  /\ header_row_idx sheet_titled = Ok 1
  /\ parse_excel sheet_titled = Ok [maths; physics]
  /\ parse_rows (drop 3 sheet_titled) [] = Ok [physics].
Proof. vm_compute. repeat split; reflexivity. Qed.

(** C3. Both parsers are to read "10:30-12:05" and "10:30–12:05" as
    10:30 to 12:05.  The workbook parser does.  The shared-sheet parser
    departs from this: its pattern asks for backslashes and the letters d
    and s, no time range matches it, and the row is skipped; a text that
    does match it makes the parser raise. *)
Theorem sheet_pattern_rejects_time_ranges :
  _parse_time (py "10:30-12:05") = Ok (t 10 30, t 12 5)
  /\ _parse_time (py "10:30–12:05") = Ok (t 10 30, t 12 5)
  /\ re_match google_sheets_import.TIME_RE (py "10:30-12:05") = None
  /\ re_match google_sheets_import.TIME_RE (py "10:30–12:05") = None
  /\ google_sheets_import._df_to_lessons elements (sheet_frame "10:30-12:05") = Ok []
  /\ google_sheets_import._df_to_lessons elements (sheet_frame "10:30–12:05") = Ok []
  /\ google_sheets_import._df_to_lessons elements (sheet_frame "\d:\dd\-\\d:\dd")
     = Raise (ValueError (py "invalid literal for int() with base 10")).
Proof. vm_compute. repeat split; reflexivity. Qed.






(** C6, the claim as it stands fails: [pd.read_csv] reads the whole
    file before the columns are looked at, and a file that it cannot
    read fails with its error, not with the one that names the missing
    column. *)
Lemma parse_csv_unreadable_file :
  admin._parse_csv elements to_datetime_native file_ragged
  = Raise (ParserError (py "Error tokenizing data. C error: Expected 5 fields in line 3, saw 6"
                        ++ [NEWLINE])).
Proof. reflexivity. Qed.

(** C6, amended. For every delimited-text file that [pd.read_csv] reads
    into a frame (it has read every data row by then) and whose header
    lacks one of the columns group_code, date, start_time, end_time,
    subject, [_parse_csv] raises the error that names exactly the missing
    columns (in the order in which Python iterates over the set), and it
    does so whatever the data rows hold and whatever their conversion
    would do: no row is converted before.  A file without the column
    subject fails naming subject. *)
Theorem parse_csv_names_missing_columns
    (set_iter : gset pystr -> list pystr) (to_datetime : cell -> result datetime.datetime)
    (path : csv_file) (df : DataFrame) :
  (forall X, set_iter X ≡ₚ elements X) ->
  read_csv path = Ok df ->
  (exists c, c ∈ [py "group_code"; py "date"; py "start_time"; py "end_time"; py "subject"]
             /\ c ∉ columns df) ->
  exists missing,
    admin._parse_csv set_iter to_datetime path
      = Raise (ValueError (py "CSV missing columns: " ++ str_join (py ", ") missing))
    /\ NoDup missing
    /\ (forall c, c ∈ missing <->
                  c ∈ [py "group_code"; py "date"; py "start_time"; py "end_time"; py "subject"]
                  /\ c ∉ columns df)
    /\ (py "subject" ∉ columns df -> py "subject" ∈ missing)
    /\ (forall rows' to_datetime',
          admin._parse_csv set_iter to_datetime'
            {| read_csv := Ok {| columns := columns df; rows := rows' |} |}
          = admin._parse_csv set_iter to_datetime path).
Proof.
  intros Hperm Hread (c & Hc & Hcol).
  assert (forall x, x ∈ admin.required <->
            x ∈ [py "group_code"; py "date"; py "start_time"; py "end_time"; py "subject"])
    as Hreq.
  { intros x. unfold admin.required. rewrite !elem_of_union, !elem_of_singleton.
    rewrite !elem_of_cons, elem_of_nil. tauto. }
  exists (set_iter (admin.required ∖ list_to_set (columns df))).
  assert (forall x, x ∈ set_iter (admin.required ∖ list_to_set (columns df)) <->
            x ∈ [py "group_code"; py "date"; py "start_time"; py "end_time"; py "subject"]
            /\ x ∉ columns df) as Hmem.
  { intros x. rewrite (set_iter_elem_of set_iter Hperm), elem_of_difference,
      elem_of_list_to_set, Hreq. done. }
  split; [apply (parse_csv_missing set_iter Hperm to_datetime path df c);
          [done|by apply Hreq|done]|].
  split; [by apply set_iter_NoDup|].
  split; [done|].
  split.
  - intros Hsub. apply Hmem. split; [|done].
    do 4 apply list_elem_of_further. apply list_elem_of_here.
  - intros rows' td'.
    rewrite (parse_csv_missing set_iter Hperm td' _ {| columns := columns df; rows := rows' |} c);
      [|done|by apply Hreq|done].
    symmetry. apply (parse_csv_missing set_iter Hperm to_datetime path df c);
      [done|by apply Hreq|done].
Qed.

Lemma parse_csv_names_missing_columns_witness :
  admin._parse_csv elements to_datetime_native file_without_subject
  = Raise (ValueError (py "CSV missing columns: subject")).
Proof.
  destruct (parse_csv_names_missing_columns elements to_datetime_native
              file_without_subject frame_without_subject
              (fun X => reflexivity (elements X)) eq_refl)
    as (missing & Hraise & _).
  { exists (py "subject"). split; apply (bool_decide_unpack _); vm_compute; exact I. }
  vm_compute. reflexivity.
Defined.

(** C7. A date cell is to be accepted when it holds a native date or
    datetime.  The text form is read as claimed (two-digit years are
    2000+YY, "01.09.24" is 2024-09-01, and the separators may be ".", "-"
    and "/").  For native values the code departs from the claim: every
    cell goes through [_safe_str] first, the [isinstance] branches never
    see a date, and the row with the native date 2024-09-01 is
    skipped. *)
Theorem native_date_cells_are_skipped :
  parse_date_cell (CStr (py "01.09.24")) = Ok (datetime.mk_date 2024 9 1)
  /\ parse_date_cell (CStr (py "1-9-24")) = Ok (datetime.mk_date 2024 9 1)
  /\ parse_date_cell (CStr (py "01/09/2024")) = Ok (datetime.mk_date 2024 9 1)
  /\ parse_excel [captions; maths_row] = Ok [maths]
  /\ parse_date_cell (hd CNone maths_row_native) = Ok (datetime.mk_date 2024 9 1)
  /\ _safe_str (hd CNone maths_row_native) = py "2024-09-01 00:00:00"
  /\ parse_excel [captions; maths_row_native] = Ok []
  /\ parse_excel [captions; maths_row_native_date] = Ok [].
Proof. vm_compute. repeat split; reflexivity. Qed.

(** C8. For every room key that the batch has not resolved yet,
    [_get_or_create_room] resolves it to the room whose building is the
    text before the first hyphen of the key and whose number is the text
    after it, or, for a key without a hyphen, whose building is empty
    and whose number is the whole key: it returns the id of the one row
    of the store with that building and number, which is the row that
    was there or a row that it adds, and it caches the id under the key.
    On a store without rooms, "101" becomes the room with building ""
    and number "101", and "Б-204" the room with building "Б" and number
    "204". *)
Theorem room_resolves_to_building_and_number (room_name : pystr) (c : caches) (s : Session) :
  usable s -> room_cache c !! room_name = None ->
  (exists building number rid s',
     (if bool_decide (HYPHEN_MINUS ∈ room_name)
      then room_name = building ++ HYPHEN_MINUS :: number /\ HYPHEN_MINUS ∉ building
      else building = [] /\ number = room_name)
     /\ _get_or_create_room room_name c s = (Ok (rid, with_room_cache c room_name rid), s')
     /\ filter (fun r => models.Room.building r = building /\ models.Room.number r = number)
          (models.room (current s'))
        = [models.Room.mk rid building number]
     /\ (models.room (current s') = models.room (current s)
         \/ models.room (current s')
            = models.room (current s) ++ [models.Room.mk rid building number])
     /\ committed s' = committed s)
  /\ models.room (current (snd (_get_or_create_room (py "101") no_caches (session.open seeded))))
     = [models.Room.mk 1 [] (py "101")]
  /\ models.room (current (snd (_get_or_create_room (py "Б-204") no_caches (session.open seeded))))
     = [models.Room.mk 1 (py "Б") (py "204")].
Proof.
  intros Hu Hmiss. split; [|split; vm_compute; reflexivity].
  pose proof (room_key_spec room_name) as Hkey.
  destruct (room_key room_name) as [building number] eqn:Hk.
  exists building, number.
  destruct (decide ((building, number) ∈ (fun r => (models.Room.building r, models.Room.number r))
                                          <$> models.room (current s))) as [Hin|Hnew].
  - apply list_elem_of_fmap in Hin as (r & Hr & Hin). symmetry in Hr.
    exists (models.Room.id r), s. split; [done|].
    split; [apply room_found; [done|done|done|by rewrite Hk]|].
    split; [|split; [by left|done]].
    rewrite (list_filter_iff _ (fun x => (fun y => (models.Room.building y, models.Room.number y)) x
                                         = (fun y => (models.Room.building y, models.Room.number y)) r));
      [|intros x; rewrite Hr; split; [by intros [-> ->]|by intros [= -> ->]]].
    rewrite (filter_key_unique (fun y => (models.Room.building y, models.Room.number y)) _ r);
      [|by apply constraints_ok_spec, Hu|done].
    injection Hr as <- <-. by destruct r.
  - destruct (room_created room_name c s Hu Hmiss) as [Hrun Hu']; [by rewrite Hk|].
    rewrite Hk in Hrun. cbn [fst snd] in Hrun.
    eexists _, _. split; [done|]. split; [exact Hrun|].
    split; [|split; [by right|done]].
    cbn. rewrite filter_app.
    rewrite filter_none;
      [|intros y Hy [Hb Hn]; apply Hnew; rewrite <- Hb, <- Hn;
        by apply (list_elem_of_fmap_2 (fun r => (models.Room.building r, models.Room.number r)))].
    by rewrite filter_cons_True.
Qed.

Lemma room_resolves_to_building_and_number_witness :
  usable (session.open seeded) /\ room_cache no_caches !! py "Б-204" = None
  /\ exists building number rid s',
       (if bool_decide (HYPHEN_MINUS ∈ py "Б-204")
        then py "Б-204" = building ++ HYPHEN_MINUS :: number /\ HYPHEN_MINUS ∉ building
        else building = [] /\ number = py "Б-204")
       /\ _get_or_create_room (py "Б-204") no_caches (session.open seeded)
          = (Ok (rid, with_room_cache no_caches (py "Б-204") rid), s')
       /\ filter (fun r => models.Room.building r = building /\ models.Room.number r = number)
            (models.room (current s'))
          = [models.Room.mk rid building number]
       /\ (models.room (current s') = models.room (current (session.open seeded))
           \/ models.room (current s')
              = models.room (current (session.open seeded))
                ++ [models.Room.mk rid building number])
       /\ committed s' = committed (session.open seeded).
Proof.
  assert (usable (session.open seeded)) as Hu by (split; vm_compute; reflexivity).
  assert (room_cache no_caches !! py "Б-204" = None) as Hmiss by (vm_compute; reflexivity).
  split; [exact Hu|]. split; [exact Hmiss|].
  exact (proj1 (room_resolves_to_building_and_number (py "Б-204") no_caches
                  (session.open seeded) Hu Hmiss)).
Defined.

(** C9. The week view is to show the block of every day that has
    lessons and the fixed sentence for a week without lessons.  The
    empty week is answered as claimed.  For a day with lessons the code
    departs from the claim: the day view reads [les.teacher], which the
    class [Lesson] of [db/models.py] does not have, so with one lesson on
    Wednesday both the day view and the week view raise. *)
Theorem week_view_raises_on_a_day_with_lessons :
  fst (bot._markdown_schedule_for_week 1 (datetime.mk_date 2024 9 2) (cold seeded))
    = Ok (py "ℹ️ На этой неделе занятий нет.")
  /\ bot.monday_of (datetime.mk_date 2024 9 4) = Ok (datetime.mk_date 2024 9 2)
  /\ fst (bot._markdown_schedule_for_day 1 (datetime.mk_date 2024 9 3) (cold wednesday_only))
     = Ok (py "📅 На 03.09.2024 занятий нет!")
  /\ fst (bot._markdown_schedule_for_day 1 (datetime.mk_date 2024 9 4) (cold wednesday_only))
     = Raise (AttributeError (py "'Lesson' object has no attribute 'teacher'"))
  /\ fst (bot._markdown_schedule_for_week 1 (datetime.mk_date 2024 9 2) (cold wednesday_only))
     = Raise (AttributeError (py "'Lesson' object has no attribute 'teacher'")).
Proof. vm_compute. repeat split; reflexivity. Qed.

(** C10, the claim as it stands fails: a row that holds fewer than six
    cells in a sheet of six columns comes from [iter_rows] with [None]
    in the places of the missing cells; here it is skipped for want of a
    group, and the lesson below it is parsed. *)
Lemma short_row_in_a_wide_sheet_is_skipped :
  length <$> sheet_short_row = [6; 3; 6]%nat
  /\ length <$> openpyxl.iter_rows sheet_short_row = [6; 6; 6]%nat
  /\ parse_excel (openpyxl.iter_rows sheet_short_row) = Ok [maths].
Proof. vm_compute. repeat split; reflexivity. Qed.

(** C10, amended. Every row comes from [iter_rows] as wide as the sheet.
    For every sheet in which the header scan succeeds, [parse_excel]
    raises the error of the six-way unpacking exactly when the sheet as
    a whole has fewer than six columns and has a row below the first:
    then the first such row is not skipped and no lesson of the file is
    returned.  In a sheet of six or more columns no row raises, however
    few cells it holds. *)
Theorem parse_excel_raises_on_narrow_sheets (cells : sheet_cells) :
  is_Some (find_header (openpyxl.iter_rows cells)) ->
  Forall (fun row => length row = openpyxl.max_column cells) (openpyxl.iter_rows cells)
  /\ ((openpyxl.max_column cells < 6)%nat -> (2 <= openpyxl.max_row cells)%nat ->
      parse_excel (openpyxl.iter_rows cells)
      = Raise (unpack_error (openpyxl.max_column cells)))
  /\ ((6 <= openpyxl.max_column cells)%nat \/ (openpyxl.max_row cells < 2)%nat ->
      exists lessons, parse_excel (openpyxl.iter_rows cells) = Ok lessons).
Proof.
  intros Hheader. pose proof (iter_rows_width cells) as Hwidth.
  pose proof (iter_rows_length cells) as Hlen.
  split; [done|]. unfold parse_excel. rewrite (header_row_idx_found _ Hheader). cbn [rbind].
  change (Z.to_nat 1) with 1%nat. split.
  - intros Hnarrow Hrows.
    destruct (openpyxl.iter_rows cells) as [|r0 [|r1 rest]] eqn:Hws; cbn in Hlen; [lia|lia|].
    cbn [drop parse_rows].
    apply Forall_cons in Hwidth as [_ Hwidth]. apply Forall_cons in Hwidth as [H1 _].
    rewrite parse_row_short by lia. by rewrite H1.
  - intros [Hwide|Hrows].
    + apply parse_rows_full. apply Forall_drop.
      eapply Forall_impl; [exact Hwidth|]. cbn. intros row ->. done.
    + assert (drop 1 (openpyxl.iter_rows cells) = []) as ->; [|by eexists].
      apply drop_ge. lia.
Qed.

Lemma parse_excel_raises_on_narrow_sheets_witness :
  parse_excel (openpyxl.iter_rows sheet_five_columns)
  = Raise (unpack_error (openpyxl.max_column sheet_five_columns)).
Proof.
  destruct (parse_excel_raises_on_narrow_sheets sheet_five_columns) as (_ & Hnarrow & _).
  - vm_compute. eauto.
  - apply Hnarrow; vm_compute; lia.
Defined.

End claims.
